(** * hoppscotch-cli: [utils/getters.ts]

    A shallow embedding of [getEffectiveFinalMetaData] (template resolution of
    request headers / parameters) and of [getResourceContents] (acquisition of
    a collection or environment from the local file system or from a server),
    together with the properties of the two functions. *)

From Stdlib Require Import String Ascii List Bool ZArith DecimalString Lia.
Import ListNotations.
Local Open Scope list_scope.
Local Open Scope string_scope.

Set Implicit Arguments.

(** ** The fragment of fp-ts the file uses *)

(** [fp-ts/string] *)
Module S.
(** [S.isEmpty = (s) => s.length === 0] *)
Definition isEmpty (s : string) : bool := Nat.eqb (String.length s) 0.
End S.

(** [fp-ts/Option] *)
Module O.
Definition some {A : Type} (a : A) : option A := Some a.
Definition none {A : Type} : option A := None.
End O.

(** [fp-ts/Either] *)
Module E.
Inductive Either (L R : Type) : Type :=
| Left (left : L)
| Right (right : R).
Arguments Left {L R} left.
Arguments Right {L R} right.

Definition isRight {L R : Type} (e : Either L R) : bool :=
  match e with
  | Right _ => true
  | Left _ => false
  end.

Definition isLeft {L R : Type} (e : Either L R) : bool :=
  match e with
  | Left _ => true
  | Right _ => false
  end.

(** [E.fromPredicate(predicate, onFalse)(a)] *)
Definition fromPredicate {L A : Type}
    (predicate : A -> bool) (onFalse : A -> L) (a : A) : Either L A :=
  if predicate a then Right a else Left (onFalse a).

(** [E.map(f)(fa)] *)
Definition map {L A B : Type} (f : A -> B) (fa : Either L A) : Either L B :=
  match fa with
  | Left l => Left l
  | Right a => Right (f a)
  end.
End E.

(** [fp-ts/Array] *)
Module A.
Definition filter {T : Type} (p : T -> bool) (xs : list T) : list T :=
  List.filter p xs.

Definition map {T U : Type} (f : T -> U) (xs : list T) : list U :=
  List.map f xs.

Definition every {T : Type} (p : T -> bool) (xs : list T) : bool :=
  List.forallb p xs.

Fixpoint filterMap {T U : Type} (f : T -> option U) (xs : list T) : list U :=
  match xs with
  | [] => []
  | x :: rest =>
      match f x with
      | Some u => u :: filterMap f rest
      | None => filterMap f rest
      end
  end.

(** [A.reduce(b, f)(fa)]: a fold from the left. *)
Definition reduce {T B : Type} (b : B) (f : B -> T -> B) (xs : list T) : B :=
  List.fold_left f xs b.
End A.

(** ** JavaScript values

    The error payload of the server declares [reason?: any], and the [data]
    of a CLI error holds [serverUrl], which may be [undefined]: both need an
    untyped value.  Numbers are kept as integers, which is all that their
    truthiness and their comparison with string literals depend on. *)
Inductive JsVal : Type :=
| JUndefined
| JNull
| JBool (b : bool)
| JNum (n : Z)
| JNaN
| JStr (s : string)
| JObj (ref : nat).

(** [ToBoolean]: the test of [if (v)], [v || d] and [v && w]. *)
Definition truthy (v : JsVal) : bool :=
  match v with
  | JUndefined | JNull | JNaN => false
  | JBool b => b
  | JNum n => negb (Z.eqb n 0)
  | JStr s => negb (S.isEmpty s)
  | JObj _ => true
  end.

(** An optional string parameter ([x?: string]) seen as a value. *)
Definition of_optional (x : option string) : JsVal :=
  match x with
  | Some s => JStr s
  | None => JUndefined
  end.

(** [Array.prototype.includes] on an array of string literals: SameValueZero
    against a string holds for an equal string only. *)
Definition array_includes (xs : list string) (v : JsVal) : bool :=
  match v with
  | JStr s => existsb (String.eqb s) xs
  | _ => false
  end.

(** [String.prototype.endsWith] *)
Definition endsWith (s suffix : string) : bool :=
  let n := String.length s in
  let k := String.length suffix in
  Nat.leb k n && String.eqb (String.substring (n - k) k s) suffix.

(** [String.prototype.includes] *)
Definition includes (s search : string) : bool :=
  match String.index 0 search s with
  | Some _ => true
  | None => false
  end.

(** ** Data of [@hoppscotch/data] and of [types/errors] *)

(** [{ active, key, value }]: a header or a parameter ([HoppRESTHeader],
    [HoppRESTParam]) at [T := string]; the same shape carries the two parse
    results between the stages of [getEffectiveFinalMetaData]. *)
Record MetaData (T : Type) : Type := mkMetaData {
  active : bool;
  key : T;
  value : T
}.
Arguments mkMetaData {T} active key value.

Definition HoppRESTHeader : Type := MetaData string.

Module Environment.
Record variable : Type := mkVariable {
  key : string;
  value : string
}.

Record t : Type := mkEnvironment {
  name : string;
  variables : list variable
}.
End Environment.

(** [HoppCLIError]: [error({ code, data })] builds the record. *)
Module HoppCLIError.
Record t (D : Type) : Type := error {
  code : JsVal;
  data : D
}.
Arguments error {D} code data.
End HoppCLIError.
Import HoppCLIError (error).

(** The value caught by [catch (err)] in [getResourceContents], read through
    the cast [err as AxiosError<{ reason?: any; ... }>]: only [code],
    [message], [response?.status] and [response?.data?.reason] are looked at.
    An absent [reason] is [JUndefined]. *)
Module AxiosError.
Record payload : Type := mkPayload {
  reason : JsVal
}.

Record response_t : Type := mkResponse {
  status : Z;
  data : option payload
}.

Record t : Type := mkAxiosError {
  code : option string;
  message : string;
  response : option response_t
}.

(** [new Error(msg)] *)
Definition Error (msg : string) : t :=
  {| code := None; message := msg; response := None |}.

(** The [TypeError] of a property read on [undefined]. *)
Definition TypeError : t :=
  Error "Cannot read properties of undefined (reading 'includes')".
End AxiosError.

(** What [axios.get] resolves to: [{ data, headers }]. *)
Module AxiosResponse.
Record t (Raw : Type) : Type := mkAxiosResponse {
  data : Raw;
  headers : list (string * string)
}.
Arguments mkAxiosResponse {Raw} data headers.

(** [headers[name]] *)
Fixpoint get (hs : list (string * string)) (name : string) : option string :=
  match hs with
  | [] => None
  | (k, v) :: rest => if String.eqb k name then Some v else get rest name
  end.
End AxiosResponse.

Inductive ResourceType : Type :=
| collection
| environment.

(** ** Asynchronous computations

    Every awaited call of [getResourceContents] is recorded, in order; a
    computation ends with a thrown value of type [X] or a result. *)
Inductive Event : Type :=
| FsAccess (path : string)
| AxiosGet (url : string) (headers : list (string * string))
| ReadJsonFile (pathOrId : string) (fileExistsInPath : bool).

Definition Async (X A : Type) : Type := (list Event * (X + A))%type.

Definition ret {X A : Type} (a : A) : Async X A := ([], inr a).

Definition throw {X A : Type} (x : X) : Async X A := ([], inl x).

Definition bind {X A B : Type} (m : Async X A) (k : A -> Async X B) : Async X B :=
  match m with
  | (t, inl x) => (t, inl x)
  | (t, inr a) => let (t', r) := k a in ((t ++ t')%list, r)
  end.

(** [try { m } catch (err) { handler(err) }] *)
Definition tryCatch {X Y A : Type} (m : Async X A) (handler : X -> Async Y A)
  : Async Y A :=
  match m with
  | (t, inl x) => let (t', r) := handler x in ((t ++ t')%list, r)
  | (t, inr a) => (t, inr a)
  end.

(** An awaited external call, with what it settled to. *)
Definition await {X A : Type} (ev : Event) (settled : X + A) : Async X A :=
  ([ev], settled).

Definition trace {X A : Type} (m : Async X A) : list Event := fst m.
Definition outcome {X A : Type} (m : Async X A) : X + A := snd m.

Notation "x <- m ;; k" := (bind m (fun x => k))
  (at level 61, m at next level, right associativity).

Definition isAxiosGet (ev : Event) : bool :=
  match ev with
  | AxiosGet _ _ => true
  | _ => false
  end.

Definition isReadJsonFile (ev : Event) : bool :=
  match ev with
  | ReadJsonFile _ _ => true
  | _ => false
  end.

(** [x || d] for an optional string [x]. *)
Definition orDefault (x : option string) (d : string) : string :=
  match x with
  | Some s => if truthy (JStr s) then s else d
  | None => d
  end.

(** [opt?.field] *)
Definition optChain {A B : Type} (x : option A) (f : A -> B) : option B :=
  match x with
  | Some a => Some (f a)
  | None => None
  end.

(** ** A template engine and collaborators to run the functions on *)

(** Modelled from the spec: the template engine [parseTemplateStringE] of
    [@hoppscotch/data] is not among the sources.  The spec describes
    placeholders written [{{name}}] that are replaced by the value bound to
    [name] in the environment, and a failure when the substitution cannot be
    done.  The engine below is used to run [getEffectiveFinalMetaData] on
    concrete inputs only; the properties are stated over any engine. *)
Module Template.
(** Modelled from the spec: the error of the engine, which is not among the
    sources; it names the variable that is not bound. *)
Inductive ParseError : Type :=
| UnboundVariable (name : string).

(** Modelled from the spec: the value bound to [name], which the engine
    that is not among the sources looks up; the first binding wins. *)
Fixpoint lookup (variables : list Environment.variable) (name : string)
  : option string :=
  match variables with
  | [] => None
  | v :: rest =>
      if String.eqb (Environment.key v) name
      then Some (Environment.value v)
      else lookup rest name
  end.

(** Modelled from the spec: the state of the scan of the engine that is
    not among the sources, outside a placeholder or inside one whose name
    has been read up to [name]. *)
Inductive mode : Type :=
| Outside
| Inside (name : string).

(** Modelled from the spec: a character outside a placeholder is copied
    (part of the engine that is not among the sources). *)
Definition push (c : ascii) (r : E.Either ParseError string)
  : E.Either ParseError string :=
  E.map (String c) r.

(** Modelled from the spec: the scan of a template, which is part of the
    engine that is not among the sources.  A placeholder that is not closed
    is kept as it is written. *)
Fixpoint expand (variables : list Environment.variable) (m : mode) (s : string)
  : E.Either ParseError string :=
  match s with
  | EmptyString =>
      match m with
      | Outside => E.Right ""
      | Inside name => E.Right ("{{" ++ name)
      end
  | String c rest =>
      match m with
      | Outside =>
          match rest with
          | String c' rest' =>
              if Ascii.eqb c "{" && Ascii.eqb c' "{"
              then expand variables (Inside "") rest'
              else push c (expand variables Outside rest)
          | EmptyString => push c (expand variables Outside rest)
          end
      | Inside name =>
          match rest with
          | String c' rest' =>
              if Ascii.eqb c "}" && Ascii.eqb c' "}"
              then
                match lookup variables name with
                | Some v => E.map (String.append v) (expand variables Outside rest')
                | None => E.Left (UnboundVariable name)
                end
              else expand variables (Inside (name ++ String c "")) rest
          | EmptyString => E.Right ("{{" ++ name ++ String c "")
          end
      end
  end.

(** Modelled from the spec: [parseTemplateStringE] of [@hoppscotch/data],
    which is not among the sources; [Left] when a placeholder names a
    variable that the environment does not bind. *)
Definition parseTemplateStringE
    (str : string) (variables : list Environment.variable)
  : E.Either ParseError string :=
  expand variables Outside str.
End Template.

(** Collaborators of [getResourceContents] for concrete runs: a raw payload
    and a document are strings here. *)
Module Sample.
Definition noFile (_ : string) : bool := false.
Definition anyFile (_ : string) : bool := true.

Definition reader (pathOrId : string) (fileExistsInPath : bool)
  : HoppCLIError.t JsVal + string :=
  if fileExistsInPath
  then inr ("file:" ++ pathOrId)
  else inl (error (JStr "FILE_NOT_FOUND") (JStr pathOrId)).

Definition transform (raw : string) : AxiosError.t + string :=
  inr ("workspace:" ++ raw).

Definition rejects (e : AxiosError.t)
    (_ : string) (_ : list (string * string))
  : AxiosError.t + AxiosResponse.t string :=
  inl e.

Definition resolves (r : AxiosResponse.t string)
    (_ : string) (_ : list (string * string))
  : AxiosError.t + AxiosResponse.t string :=
  inr r.

Definition connectionRefused : AxiosError.t :=
  {| AxiosError.code := Some "ECONNREFUSED";
     AxiosError.message := "connect ECONNREFUSED 127.0.0.1:3170";
     AxiosError.response := None |}.

Definition invalidUrl : AxiosError.t :=
  {| AxiosError.code := Some "ERR_INVALID_URL";
     AxiosError.message := "Invalid URL";
     AxiosError.response := None |}.

Definition hostNotFound : AxiosError.t :=
  {| AxiosError.code := Some "ENOTFOUND";
     AxiosError.message := "getaddrinfo ENOTFOUND stage.example";
     AxiosError.response := None |}.

Definition httpError (st : Z) (body : option AxiosError.payload) : AxiosError.t :=
  {| AxiosError.code := Some "ERR_BAD_REQUEST";
     AxiosError.message := "Request failed";
     AxiosError.response :=
       Some {| AxiosError.status := st; AxiosError.data := body |} |}.

Definition withReason (r : string) : option AxiosError.payload :=
  Some {| AxiosError.reason := JStr r |}.

Definition htmlPage : AxiosResponse.t string :=
  {| AxiosResponse.data := "<html></html>";
     AxiosResponse.headers := [("content-type", "text/html; charset=utf-8")] |}.

Definition jsonBody : AxiosResponse.t string :=
  {| AxiosResponse.data := "{}";
     AxiosResponse.headers := [("content-type", "application/json; charset=utf-8")] |}.
End Sample.

(** Further collaborators for concrete runs: a transformer that throws,
    and the styles of chalk as the escape sequences of a terminal. *)
Module Sample2.
Definition transformThrows (_ : string) : AxiosError.t + string :=
  inl (AxiosError.Error "Cannot read properties of undefined (reading 'map')").

Definition escape : string := String (Ascii.ascii_of_nat 27) "[".

Definition style (code s : string) : string :=
  escape ++ code ++ "m" ++ s ++ escape ++ "39m".

Definition greenBright : string -> string := style "92".
Definition yellowBright : string -> string := style "93".
Definition redBright : string -> string := style "91".

Definition onlyZeroDigit (s : string) : bool := String.eqb s "0".
End Sample2.

(** ** Plain objects and status codes *)

(** A [Record<string, string>] seen through its own properties: the value
    of the own property [k], if there is one. *)
Module Obj.
Definition t : Type := string -> option string.

(** [{}] *)
Definition empty : t := fun _ => None.

(** The definition of the own data property [k]. *)
Definition define (o : t) (k v : string) : t :=
  fun k' => if String.eqb k' k then Some v else o k'.

(** [Object.assign(target, { [k]: v })]: the property is written with
    [[Set]], which for the key [__proto__] reaches the setter inherited from
    [Object.prototype]; that setter does nothing for a string. *)
Definition assign (target : t) (k v : string) : t :=
  if String.eqb k "__proto__" then target else define target k v.
End Obj.

(** [status: number | string]; a number is an integer, as a status code
    is, small enough to be printed in decimal notation. *)
Inductive Status : Type :=
| StatusNum (n : Z)
| StatusStr (s : string).

(** [status.toString()], which is also what a template literal prints. *)
Definition statusToString (status : Status) : string :=
  match status with
  | StatusNum n => NilZero.string_of_int (Z.to_int n)
  | StatusStr s => s
  end.

(** [String.prototype.startsWith] *)
Definition startsWith (s search : string) : bool := String.prefix search s.

Section Getters.

(** ** [getEffectiveFinalMetaData] *)

(** The template engine is imported from [@hoppscotch/data]; the function
    is stated over any engine. *)
Variable ParseError : Type.
Variable parseTemplateStringE :
  string -> list Environment.variable -> E.Either ParseError string.

Definition Parsed : Type := MetaData (E.Either ParseError string).

(** [({ key, active }) => !S.isEmpty(key) && active] *)
Definition isActiveNonEmpty (m : HoppRESTHeader) : bool :=
  negb (S.isEmpty (key m)) && active m.

(** The mapping stage: both fields are parsed against the environment. *)
Definition parsePair (environment : Environment.t) (m : HoppRESTHeader) : Parsed :=
  {| active := true;
     key := parseTemplateStringE (key m) (Environment.variables environment);
     value := parseTemplateStringE (value m) (Environment.variables environment) |}.

(** [({ key, value }) => E.isRight(key) && E.isRight(value)] *)
Definition bothRight (p : Parsed) : bool :=
  E.isRight (key p) && E.isRight (value p).

(** The callback of [A.filterMap]. *)
Definition rightPair (p : Parsed) : option HoppRESTHeader :=
  match key p, value p with
  | E.Right k, E.Right v => O.some {| active := true; key := k; value := v |}
  | _, _ => O.none
  end.

Definition getEffectiveFinalMetaData
    (metaData : list HoppRESTHeader) (environment : Environment.t)
  : E.Either (HoppCLIError.t (list Parsed)) (list HoppRESTHeader) :=
  E.map (A.filterMap rightPair)
    (E.fromPredicate (A.every bothRight)
       (fun reason => error (JStr "PARSING_ERROR") reason)
       (A.map (parsePair environment)
          (A.filter isActiveNonEmpty metaData))).

(** The entries that take part in the resolution, and the per-entry
    outcomes computed for them. *)
Definition survivors (metaData : list HoppRESTHeader) : list HoppRESTHeader :=
  A.filter isActiveNonEmpty metaData.

Definition outcomes (metaData : list HoppRESTHeader) (environment : Environment.t)
  : list Parsed :=
  A.map (parsePair environment) (survivors metaData).

(** An entry is considered when it is active and its key is not empty. *)
Definition considered (m : HoppRESTHeader) : Prop :=
  active m = true /\ key m <> "".

(** An entry fails when one of its two substitutions is a [Left]. *)
Definition fails (environment : Environment.t) (m : HoppRESTHeader) : Prop :=
  E.isLeft (parseTemplateStringE (key m) (Environment.variables environment)) = true \/
  E.isLeft (parseTemplateStringE (value m) (Environment.variables environment)) = true.

(** An entry [m] resolves to [r] when its two substitutions are the
    [Right]s of the key and the value of [r], and [r] is active. *)
Definition resolvesTo (environment : Environment.t)
    (m : HoppRESTHeader) (r : HoppRESTHeader) : Prop :=
  parseTemplateStringE (key m) (Environment.variables environment) = E.Right (key r) /\
  parseTemplateStringE (value m) (Environment.variables environment) = E.Right (value r) /\
  active r = true.

(** ** [getResourceContents] *)

(** The collaborators: the existence probe [fs.access] ([true] when the
    promise resolves), [axios.get], the reader [readJsonFile] of
    [utils/mutators] and the transformers of [utils/workspace-access]
    (anything they throw is caught by the same [catch]). *)
Variables Raw Doc : Type.
Variable fs_access : string -> bool.
Variable axios_get :
  string -> list (string * string) -> AxiosError.t + AxiosResponse.t Raw.
Variable readJsonFile : string -> bool -> HoppCLIError.t JsVal + Doc.
Variable transformWorkspaceCollection : Raw -> AxiosError.t + Doc.
Variable transformWorkspaceEnvironment : Raw -> AxiosError.t + Doc.

Definition DEFAULT_SERVER_URL : string := "https://api.hoppscotch.io".

(** [try { await fs.access(pathOrId); true } catch (e) { false }] *)
Definition probe {X : Type} (pathOrId : string) : Async X bool :=
  tryCatch
    (_ <- await (FsAccess pathOrId)
            (if fs_access pathOrId then inr tt else inl tt) ;;
     ret true)
    (fun _ : unit => ret false).

(** The URL of the request. *)
Definition requestUrl
    (pathOrId : string) (serverUrl : option string) (resourceType : ResourceType)
  : string :=
  let hostname := orDefault serverUrl DEFAULT_SERVER_URL in
  let separator := if endsWith hostname "/" then "" else "/" in
  let resourcePath :=
    match resourceType with
    | collection => "collection"
    | environment => "environment"
    end in
  hostname ++ separator ++ "v1/access-tokens/" ++ resourcePath ++ "/" ++ pathOrId.

Definition requestHeaders (accessToken : string) : list (string * string) :=
  [("Authorization", "Bearer " ++ accessToken)].

(** The body of the [try] block; its value is the new [contents]. *)
Definition fetchRemote
    (pathOrId accessToken : string) (serverUrl : option string)
    (resourceType : ResourceType) : Async AxiosError.t (option Doc) :=
  let url := requestUrl pathOrId serverUrl resourceType in
  resp <- await (AxiosGet url (requestHeaders accessToken))
            (axios_get url (requestHeaders accessToken)) ;;
  contentType <-
    match AxiosResponse.get (AxiosResponse.headers resp) "content-type" with
    | Some v => ret v
    | None => throw AxiosError.TypeError
    end ;;
  if negb (includes contentType "application/json")
  then throw (AxiosError.Error "INVALID_CONTENT_TYPE")
  else
    match
      match resourceType with
      | collection => transformWorkspaceCollection (AxiosResponse.data resp)
      | environment => transformWorkspaceEnvironment (AxiosResponse.data resp)
      end
    with
    | inl thrown => throw thrown
    | inr doc => ret (Some doc)
    end.

Definition isConnectionRefused (axiosErr : AxiosError.t) : bool :=
  match AxiosError.code axiosErr with
  | Some c => String.eqb c "ECONNREFUSED"
  | None => false
  end.

Definition isInvalidServerUrl (axiosErr : AxiosError.t) : bool :=
  String.eqb (AxiosError.message axiosErr) "INVALID_CONTENT_TYPE"
  || match AxiosError.code axiosErr with
     | Some c => String.eqb c "ERR_INVALID_URL"
     | None => false
     end
  || match AxiosError.code axiosErr with
     | Some c => String.eqb c "ENOTFOUND"
     | None => false
     end
  || match optChain (AxiosError.response axiosErr) AxiosError.status with
     | Some st => Z.eqb st 404
     | None => false
     end.

(** [axiosErr.response?.data?.reason] *)
Definition errReasonOf (axiosErr : AxiosError.t) : JsVal :=
  match AxiosError.response axiosErr with
  | Some r =>
      match AxiosError.data r with
      | Some d => AxiosError.reason d
      | None => JUndefined
      end
  | None => JUndefined
  end.

(** The body of the [catch] block; falling off its end leaves [contents]
    at [null]. *)
Definition onFetchError
    (pathOrId accessToken : string) (serverUrl : option string)
    (axiosErr : AxiosError.t) : Async (HoppCLIError.t JsVal) (option Doc) :=
  if isConnectionRefused axiosErr
  then throw (error (JStr "SERVER_CONNECTION_REFUSED") (of_optional serverUrl))
  else if isInvalidServerUrl axiosErr
  then throw (error (JStr "INVALID_SERVER_URL") (of_optional serverUrl))
  else
    let errReason := errReasonOf axiosErr in
    if truthy errReason
    then throw (error errReason
                  (if array_includes ["TOKEN_EXPIRED"; "TOKEN_INVALID"] errReason
                   then JStr accessToken
                   else JStr pathOrId))
    else ret None.

Definition getResourceContents
    (pathOrId : string) (accessToken serverUrl : option string)
    (resourceType : ResourceType) : Async (HoppCLIError.t JsVal) Doc :=
  fileExistsInPath <- probe pathOrId ;;
  contents <-
    match accessToken with
    | Some token =>
        if truthy (JStr token) && negb fileExistsInPath
        then tryCatch (fetchRemote pathOrId token serverUrl resourceType)
                      (onFetchError pathOrId token serverUrl)
        else ret None
    | None => ret None
    end ;;
  match contents with
  | None =>
      await (ReadJsonFile pathOrId fileExistsInPath)
        (readJsonFile pathOrId fileExistsInPath)
  | Some c => ret c
  end.

(** The base of the URL as the specification words it: [serverUrl], or
    the default when [serverUrl] is absent. *)
Definition statedBase (serverUrl : option string) : string :=
  match serverUrl with
  | Some s => s
  | None => DEFAULT_SERVER_URL
  end.

(** The base the request is sent to: the default also stands in for an
    empty [serverUrl]. *)
Definition chosenBase (serverUrl : option string) : string :=
  match serverUrl with
  | Some EmptyString => DEFAULT_SERVER_URL
  | Some s => s
  | None => DEFAULT_SERVER_URL
  end.

(** [{base}{"/" unless base ends with "/"}v1/access-tokens/{kind}/{pathOrId}] *)
Definition urlOver (base pathOrId : string) (resourceType : ResourceType) : string :=
  base
  ++ (if endsWith base "/" then "" else "/")
  ++ "v1/access-tokens/"
  ++ match resourceType with
     | collection => "collection"
     | environment => "environment"
     end
  ++ "/" ++ pathOrId.

Definition noNetworkCall (t : list Event) : Prop :=
  existsb isAxiosGet t = false.

Definition noLocalRead (t : list Event) : Prop :=
  existsb isReadJsonFile t = false.

(** The decimal notation of [n], from 0 to 9999, starts with the digit
    [d]. *)
Definition leadsWith (d n : Z) : bool :=
  Z.eqb n d
  || (Z.leb (10 * d) n && Z.ltb n (10 * (d + 1)))
  || (Z.leb (100 * d) n && Z.ltb n (100 * (d + 1)))
  || (Z.leb (1000 * d) n && Z.ltb n (1000 * (d + 1))).

(** ** [getMetaDataPairs] *)

(** [({ active, key }) => active && !S.isEmpty(key)] *)
Definition isActiveWithKey (m : HoppRESTHeader) : bool :=
  active m && negb (S.isEmpty (key m)).

Definition getMetaDataPairs (metaData : list HoppRESTHeader) : Obj.t :=
  A.reduce Obj.empty
    (fun target m => Obj.assign target (key m) (value m))
    (A.filter isActiveWithKey metaData).

(** ** [getColorStatusCode] *)

(** The three styles of chalk that are used, and the comparison [s == 0]
    of a string with zero. *)
Variables greenBright yellowBright redBright : string -> string.
Variable stringEqualsZero : string -> bool.

(** [status == 0] *)
Definition statusEqualsZero (status : Status) : bool :=
  match status with
  | StatusNum n => Z.eqb n 0
  | StatusStr s => stringEqualsZero s
  end.

Definition getColorStatusCode (status : Status) (statusText : string) : string :=
  let statusCode :=
    (if statusEqualsZero status then "Error" else statusToString status)
    ++ " : " ++ statusText in
  if startsWith (statusToString status) "2"
  then greenBright statusCode
  else if startsWith (statusToString status) "3"
  then yellowBright statusCode
  else redBright statusCode.

(** ** Properties of [getEffectiveFinalMetaData] *)

Lemma isEmpty_true_iff (s : string) : S.isEmpty s = true <-> s = "".
Proof.
  unfold S.isEmpty. destruct s as [|c s]; simpl; split; intro H;
    try reflexivity; discriminate H.
Qed.

Lemma isActiveNonEmpty_iff (m : HoppRESTHeader) :
  isActiveNonEmpty m = true <-> considered m.
Proof.
  unfold isActiveNonEmpty, considered.
  rewrite andb_true_iff, negb_true_iff. split.
  - intros [Hk Ha]. split; [exact Ha|].
    intro Hempty. apply isEmpty_true_iff in Hempty. congruence.
  - intros [Ha Hk]. split; [|exact Ha].
    destruct (S.isEmpty (key m)) eqn:He; [|reflexivity].
    apply isEmpty_true_iff in He. contradiction.
Qed.

Lemma survivors_iff (metaData : list HoppRESTHeader) (m : HoppRESTHeader) :
  In m (survivors metaData) <-> In m metaData /\ considered m.
Proof.
  unfold survivors, A.filter. rewrite filter_In, isActiveNonEmpty_iff.
  reflexivity.
Qed.

Lemma survivors_considered (metaData : list HoppRESTHeader) :
  Forall considered (survivors metaData).
Proof.
  apply Forall_forall. intros m Hm. apply survivors_iff in Hm. tauto.
Qed.

(** The function is a two-way choice on the outcomes of the survivors. *)
Lemma getEffectiveFinalMetaData_eq
    (metaData : list HoppRESTHeader) (environment : Environment.t) :
  getEffectiveFinalMetaData metaData environment =
  if A.every bothRight (outcomes metaData environment)
  then E.Right (A.filterMap rightPair (outcomes metaData environment))
  else E.Left (error (JStr "PARSING_ERROR") (outcomes metaData environment)).
Proof.
  unfold getEffectiveFinalMetaData, outcomes, survivors, E.fromPredicate.
  destruct (A.every bothRight _); reflexivity.
Qed.

Lemma bothRight_parsePair_false (environment : Environment.t) (m : HoppRESTHeader) :
  fails environment m -> bothRight (parsePair environment m) = false.
Proof.
  unfold fails, bothRight, parsePair. simpl.
  destruct (parseTemplateStringE (key m) _), (parseTemplateStringE (value m) _);
    simpl; intros [H|H]; try discriminate H; reflexivity.
Qed.

Lemma bothRight_parsePair_true (environment : Environment.t) (m r : HoppRESTHeader) :
  resolvesTo environment m r -> bothRight (parsePair environment m) = true.
Proof.
  unfold resolvesTo, bothRight, parsePair. simpl.
  intros (Hk & Hv & _). rewrite Hk, Hv. reflexivity.
Qed.

Lemma every_outcomes_false
    (environment : Environment.t) (ms : list HoppRESTHeader) (m : HoppRESTHeader) :
  In m ms -> fails environment m ->
  A.every bothRight (A.map (parsePair environment) ms) = false.
Proof.
  intros Hin Hfail. unfold A.every, A.map.
  induction ms as [|x xs IH]; simpl in *; [contradiction|].
  destruct Hin as [->|Hin].
  - rewrite (bothRight_parsePair_false Hfail). reflexivity.
  - rewrite (IH Hin). apply andb_false_r.
Qed.

Lemma every_outcomes_true
    (environment : Environment.t) (ms : list HoppRESTHeader) :
  (forall m, In m ms -> exists r, resolvesTo environment m r) ->
  A.every bothRight (A.map (parsePair environment) ms) = true.
Proof.
  intros H. unfold A.every, A.map. rewrite forallb_forall.
  intros p Hp. apply in_map_iff in Hp. destruct Hp as (m & <- & Hm).
  destruct (H m Hm) as [r Hr]. exact (bothRight_parsePair_true Hr).
Qed.

(** When every outcome is a pair of [Right]s, the projection keeps one
    resolved entry per parsed entry, in order. *)
Lemma filterMap_rightPair
    (environment : Environment.t) (ms : list HoppRESTHeader) :
  A.every bothRight (A.map (parsePair environment) ms) = true ->
  Forall2 (resolvesTo environment) ms
    (A.filterMap rightPair (A.map (parsePair environment) ms)).
Proof.
  unfold A.every, A.map.
  induction ms as [|m ms IH]; simpl; intro H.
  - constructor.
  - apply andb_true_iff in H. destruct H as [Hm Hms].
    unfold bothRight, rightPair, parsePair in *; simpl in *.
    destruct (parseTemplateStringE (key m) _) as [|k] eqn:Hk; [discriminate Hm|].
    destruct (parseTemplateStringE (value m) _) as [|v] eqn:Hv; [discriminate Hm|].
    unfold O.some. constructor.
    + unfold resolvesTo; simpl. rewrite Hk, Hv. auto.
    + apply IH. exact Hms.
Qed.

Lemma excluded_not_considered (m : HoppRESTHeader) :
  active m = false \/ key m = "" -> ~ considered m.
Proof.
  unfold considered. intros [Ha|Hk] [Ha' Hk']; congruence.
Qed.

(** An entry that is not considered can be deleted from the input. *)
Lemma excluded_entry_is_ignored
    (before after : list HoppRESTHeader) (m : HoppRESTHeader)
    (environment : Environment.t) :
  ~ considered m ->
  getEffectiveFinalMetaData (before ++ m :: after)%list environment =
  getEffectiveFinalMetaData (before ++ after)%list environment.
Proof.
  intro Hm. rewrite !getEffectiveFinalMetaData_eq.
  unfold outcomes, survivors, A.filter.
  rewrite !filter_app. simpl.
  destruct (isActiveNonEmpty m) eqn:Hk; [|reflexivity].
  apply isActiveNonEmpty_iff in Hk. contradiction.
Qed.

(** C1: when an entry that is considered (active, non-empty key) fails
    in its key or in its value, the result is a [Left] holding a
    [PARSING_ERROR] whose data is the whole list of outcomes, one per
    considered entry, successes included; it is never a [Right]. *)
Theorem failure_is_aggregated
    (metaData : list HoppRESTHeader) (environment : Environment.t) :
  (exists m, In m metaData /\ considered m /\ fails environment m) ->
  getEffectiveFinalMetaData metaData environment =
  E.Left (error (JStr "PARSING_ERROR")
            (List.map (parsePair environment) (survivors metaData))).
Proof.
  intros (m & Hin & Hc & Hf).
  rewrite getEffectiveFinalMetaData_eq. unfold outcomes.
  rewrite (@every_outcomes_false environment (survivors metaData) m).
  - reflexivity.
  - apply survivors_iff. split; assumption.
  - exact Hf.
Qed.

(** C3: the entries the result is computed from are all active with a
    non-empty key; a [PARSING_ERROR] carries exactly one outcome for each
    of them, in order, and a success holds exactly one resolved entry for
    each of them, in order, so that an entry with [active = false] or an
    empty key has no counterpart in either list; and deleting such an entry
    from the input leaves the result unchanged. *)
Theorem excluded_entries_are_not_resolved
    (metaData : list HoppRESTHeader) (environment : Environment.t) :
  Forall considered (survivors metaData) /\
  match getEffectiveFinalMetaData metaData environment with
  | E.Left err =>
      HoppCLIError.code err = JStr "PARSING_ERROR" /\
      HoppCLIError.data err = List.map (parsePair environment) (survivors metaData)
  | E.Right resolved =>
      Forall2 (resolvesTo environment) (survivors metaData) resolved
  end /\
  (forall before m after,
     metaData = (before ++ m :: after)%list ->
     active m = false \/ key m = "" ->
     getEffectiveFinalMetaData metaData environment =
     getEffectiveFinalMetaData (before ++ after)%list environment).
Proof.
  split; [apply survivors_considered|]. split.
  - rewrite getEffectiveFinalMetaData_eq. unfold outcomes.
    destruct (A.every bothRight _) eqn:Hall.
    + apply filterMap_rightPair. exact Hall.
    + simpl. split; reflexivity.
  - intros before m after -> Hm.
    apply excluded_entry_is_ignored, excluded_not_considered, Hm.
Qed.

(** C4: when the key and the value of every considered entry are
    substituted with success, the result is a [Right] with one entry per
    considered entry, in the order of the input; each holds the substituted
    key and value and has [active = true]. *)
Theorem success_is_ordered_projection
    (metaData : list HoppRESTHeader) (environment : Environment.t) :
  (forall m, In m metaData -> considered m ->
             exists r, resolvesTo environment m r) ->
  exists resolved,
    getEffectiveFinalMetaData metaData environment = E.Right resolved /\
    Forall2 (resolvesTo environment) (survivors metaData) resolved /\
    Forall (fun r => active r = true) resolved.
Proof.
  intro H.
  assert (Hall : A.every bothRight
                   (A.map (parsePair environment) (survivors metaData)) = true).
  { apply every_outcomes_true. intros m Hm.
    apply survivors_iff in Hm. destruct Hm as [Hin Hc]. exact (H m Hin Hc). }
  exists (A.filterMap rightPair (outcomes metaData environment)).
  rewrite getEffectiveFinalMetaData_eq. unfold outcomes. rewrite Hall.
  pose proof (filterMap_rightPair _ _ Hall) as HF.
  split; [reflexivity|]. split; [exact HF|].
  clear - HF. induction HF as [|m r ms rs Hmr _ IH]; constructor.
  - apply Hmr.
  - exact IH.
Qed.

(** ** Properties of [getResourceContents] *)

Lemma truthy_string_iff (s : string) : truthy (JStr s) = true <-> s <> "".
Proof.
  simpl. rewrite negb_true_iff. split.
  - intros H Hs. apply isEmpty_true_iff in Hs. congruence.
  - intro H. destruct (S.isEmpty s) eqn:He; [|reflexivity].
    apply isEmpty_true_iff in He. contradiction.
Qed.

Lemma probe_eq (X : Type) (pathOrId : string) :
  @probe X pathOrId = ([FsAccess pathOrId], inr (fs_access pathOrId)).
Proof.
  unfold probe, await, bind, tryCatch, ret.
  destruct (fs_access pathOrId); reflexivity.
Qed.

(** The [try] block performs the request and nothing else. *)
Lemma fetchRemote_trace
    (pathOrId accessToken : string) (serverUrl : option string)
    (resourceType : ResourceType) :
  trace (fetchRemote pathOrId accessToken serverUrl resourceType) =
  [AxiosGet (requestUrl pathOrId serverUrl resourceType)
     (requestHeaders accessToken)].
Proof.
  unfold fetchRemote, await, bind, trace.
  destruct (axios_get _ _) as [e|resp]; [reflexivity|].
  destruct (AxiosResponse.get _ _) as [ct|]; [|reflexivity].
  unfold ret at 1.
  destruct (includes ct _); [|reflexivity].
  unfold negb.
  destruct resourceType;
    [destruct (transformWorkspaceCollection _)
    |destruct (transformWorkspaceEnvironment _)]; reflexivity.
Qed.

(** The [catch] block performs no call. *)
Lemma onFetchError_trace
    (pathOrId accessToken : string) (serverUrl : option string)
    (axiosErr : AxiosError.t) :
  trace (onFetchError pathOrId accessToken serverUrl axiosErr) = [].
Proof.
  unfold onFetchError.
  destruct (isConnectionRefused axiosErr); [reflexivity|].
  destruct (isInvalidServerUrl axiosErr); [reflexivity|].
  destruct (truthy (errReasonOf axiosErr)); reflexivity.
Qed.

(** Without a truthy token, or with a file at [pathOrId], the function is
    the probe followed by the local read. *)
Lemma getResourceContents_local
    (pathOrId : string) (accessToken serverUrl : option string)
    (resourceType : ResourceType) :
  match accessToken with
  | Some token => truthy (JStr token) && negb (fs_access pathOrId)
  | None => false
  end = false ->
  getResourceContents pathOrId accessToken serverUrl resourceType =
  ([FsAccess pathOrId; ReadJsonFile pathOrId (fs_access pathOrId)],
   readJsonFile pathOrId (fs_access pathOrId)).
Proof.
  intro H. unfold getResourceContents. rewrite probe_eq.
  unfold bind at 1.
  destruct accessToken as [token|]; [rewrite H|]; reflexivity.
Qed.

(** With a truthy token and no file at [pathOrId], the function is the
    probe, the request, and what the two blocks decide. *)
Lemma getResourceContents_remote
    (pathOrId token : string) (serverUrl : option string)
    (resourceType : ResourceType) :
  token <> "" -> fs_access pathOrId = false ->
  let request :=
    AxiosGet (requestUrl pathOrId serverUrl resourceType) (requestHeaders token) in
  let fallback :=
    ([FsAccess pathOrId; request; ReadJsonFile pathOrId false],
     readJsonFile pathOrId false) in
  getResourceContents pathOrId (Some token) serverUrl resourceType =
  match outcome (fetchRemote pathOrId token serverUrl resourceType) with
  | inr (Some doc) => ([FsAccess pathOrId; request], inr doc)
  | inr None => fallback
  | inl axiosErr =>
      match outcome (onFetchError pathOrId token serverUrl axiosErr) with
      | inl e => ([FsAccess pathOrId; request], inl e)
      | inr (Some doc) => ([FsAccess pathOrId; request], inr doc)
      | inr None => fallback
      end
  end.
Proof.
  intros Htoken Hfile request fallback. subst request fallback.
  apply truthy_string_iff in Htoken.
  unfold getResourceContents. rewrite probe_eq.
  unfold bind at 1. rewrite Hfile, Htoken.
  change (true && negb false) with true. cbv iota.
  pose proof (fetchRemote_trace pathOrId token serverUrl resourceType) as Ht.
  destruct (fetchRemote pathOrId token serverUrl resourceType) as [t [axiosErr|c]].
  - unfold trace in Ht; simpl in Ht; subst t. unfold outcome; simpl snd.
    pose proof (onFetchError_trace pathOrId token serverUrl axiosErr) as Hh.
    unfold tryCatch.
    destruct (onFetchError pathOrId token serverUrl axiosErr) as [t' [e|c]].
    + unfold trace in Hh; simpl in Hh; subst t'. reflexivity.
    + unfold trace in Hh; simpl in Hh; subst t'. destruct c; reflexivity.
  - unfold trace in Ht; simpl in Ht; subst t. unfold outcome; simpl snd.
    destruct c; reflexivity.
Qed.

(** A rejection of [axios.get] is what the [try] block throws. *)
Lemma fetchRemote_rejected
    (pathOrId accessToken : string) (serverUrl : option string)
    (resourceType : ResourceType) (axiosErr : AxiosError.t) :
  axios_get (requestUrl pathOrId serverUrl resourceType)
    (requestHeaders accessToken) = inl axiosErr ->
  outcome (fetchRemote pathOrId accessToken serverUrl resourceType) = inl axiosErr.
Proof.
  intro H. unfold fetchRemote, await, bind, outcome. rewrite H. reflexivity.
Qed.

(** A response whose [content-type] lacks [application/json] makes the
    [try] block throw [new Error("INVALID_CONTENT_TYPE")]. *)
Lemma fetchRemote_wrong_content_type
    (pathOrId accessToken : string) (serverUrl : option string)
    (resourceType : ResourceType) (resp : AxiosResponse.t Raw) (ct : string) :
  axios_get (requestUrl pathOrId serverUrl resourceType)
    (requestHeaders accessToken) = inr resp ->
  AxiosResponse.get (AxiosResponse.headers resp) "content-type" = Some ct ->
  includes ct "application/json" = false ->
  outcome (fetchRemote pathOrId accessToken serverUrl resourceType) =
  inl (AxiosError.Error "INVALID_CONTENT_TYPE").
Proof.
  intros H Hct Hinc. unfold fetchRemote, await, bind, outcome.
  rewrite H, Hct. unfold ret at 1. rewrite Hinc. reflexivity.
Qed.

(** A response without a [content-type] header makes the [try] block
    throw a [TypeError], which no test of the [catch] block matches. *)
Lemma fetchRemote_no_content_type
    (pathOrId accessToken : string) (serverUrl : option string)
    (resourceType : ResourceType) (resp : AxiosResponse.t Raw) :
  axios_get (requestUrl pathOrId serverUrl resourceType)
    (requestHeaders accessToken) = inr resp ->
  AxiosResponse.get (AxiosResponse.headers resp) "content-type" = None ->
  outcome (fetchRemote pathOrId accessToken serverUrl resourceType) =
  inl AxiosError.TypeError.
Proof.
  intros H Hct. unfold fetchRemote, await, bind, outcome.
  rewrite H, Hct. reflexivity.
Qed.

(** What the thrown error holds when the connection is refused. *)
Lemma connection_refused_is_fatal
    (pathOrId token : string) (serverUrl : option string)
    (resourceType : ResourceType) (axiosErr : AxiosError.t) :
  token <> "" -> fs_access pathOrId = false ->
  outcome (fetchRemote pathOrId token serverUrl resourceType) = inl axiosErr ->
  isConnectionRefused axiosErr = true ->
  getResourceContents pathOrId (Some token) serverUrl resourceType =
  ([FsAccess pathOrId;
    AxiosGet (requestUrl pathOrId serverUrl resourceType) (requestHeaders token)],
   inl (error (JStr "SERVER_CONNECTION_REFUSED") (of_optional serverUrl))).
Proof.
  intros Htoken Hfile Hfetch Hrefused.
  rewrite (getResourceContents_remote serverUrl resourceType Htoken Hfile).
  rewrite Hfetch. unfold onFetchError. rewrite Hrefused. reflexivity.
Qed.

(** What the thrown error holds for the errors of the invalid-URL kind. *)
Lemma invalid_server_url_is_fatal
    (pathOrId token : string) (serverUrl : option string)
    (resourceType : ResourceType) (axiosErr : AxiosError.t) :
  token <> "" -> fs_access pathOrId = false ->
  outcome (fetchRemote pathOrId token serverUrl resourceType) = inl axiosErr ->
  isConnectionRefused axiosErr = false ->
  isInvalidServerUrl axiosErr = true ->
  getResourceContents pathOrId (Some token) serverUrl resourceType =
  ([FsAccess pathOrId;
    AxiosGet (requestUrl pathOrId serverUrl resourceType) (requestHeaders token)],
   inl (error (JStr "INVALID_SERVER_URL") (of_optional serverUrl))).
Proof.
  intros Htoken Hfile Hfetch Hrefused Hinvalid.
  rewrite (getResourceContents_remote serverUrl resourceType Htoken Hfile).
  rewrite Hfetch. unfold onFetchError. rewrite Hrefused, Hinvalid. reflexivity.
Qed.

(** A response without a [content-type] header is followed by the local
    read: the [TypeError] is none of the errors the [catch] block throws
    for. *)
Lemma no_content_type_falls_back
    (pathOrId token : string) (serverUrl : option string)
    (resourceType : ResourceType) (resp : AxiosResponse.t Raw) :
  token <> "" -> fs_access pathOrId = false ->
  axios_get (requestUrl pathOrId serverUrl resourceType)
    (requestHeaders token) = inr resp ->
  AxiosResponse.get (AxiosResponse.headers resp) "content-type" = None ->
  getResourceContents pathOrId (Some token) serverUrl resourceType =
  ([FsAccess pathOrId;
    AxiosGet (requestUrl pathOrId serverUrl resourceType) (requestHeaders token);
    ReadJsonFile pathOrId false],
   readJsonFile pathOrId false).
Proof.
  intros Htoken Hfile Hresp Hct.
  rewrite (getResourceContents_remote serverUrl resourceType Htoken Hfile).
  rewrite (@fetchRemote_no_content_type pathOrId token serverUrl resourceType
             resp Hresp Hct).
  reflexivity.
Qed.

Lemma requestUrl_eq
    (pathOrId : string) (serverUrl : option string) (resourceType : ResourceType) :
  requestUrl pathOrId serverUrl resourceType =
  urlOver (chosenBase serverUrl) pathOrId resourceType.
Proof.
  unfold requestUrl, urlOver.
  replace (orDefault serverUrl DEFAULT_SERVER_URL) with (chosenBase serverUrl).
  - destruct resourceType; reflexivity.
  - unfold orDefault, chosenBase. destruct serverUrl as [[|c s]|]; reflexivity.
Qed.

(** C2: when the probe finds a file at [pathOrId], the calls made are the
    probe and the local read, told that the file exists; no request is
    sent, whatever the token, the server URL and the resource type are. *)
Theorem local_file_takes_precedence
    (pathOrId : string) (accessToken serverUrl : option string)
    (resourceType : ResourceType) :
  fs_access pathOrId = true ->
  trace (getResourceContents pathOrId accessToken serverUrl resourceType) =
    [FsAccess pathOrId; ReadJsonFile pathOrId true] /\
  outcome (getResourceContents pathOrId accessToken serverUrl resourceType) =
    readJsonFile pathOrId true /\
  noNetworkCall
    (trace (getResourceContents pathOrId accessToken serverUrl resourceType)).
Proof.
  intro Hfile.
  rewrite getResourceContents_local.
  - rewrite Hfile. repeat split.
  - rewrite Hfile. destruct accessToken as [token|]; [|reflexivity].
    apply andb_false_r.
Qed.

(** C10: an empty access token is handled as a missing one: the calls
    made are the probe and the local read, also when the probe found no
    file, and no request is sent. *)
Theorem empty_token_is_absent
    (pathOrId : string) (serverUrl : option string)
    (resourceType : ResourceType) :
  getResourceContents pathOrId (Some "") serverUrl resourceType =
    ([FsAccess pathOrId; ReadJsonFile pathOrId (fs_access pathOrId)],
     readJsonFile pathOrId (fs_access pathOrId)) /\
  getResourceContents pathOrId (Some "") serverUrl resourceType =
    getResourceContents pathOrId None serverUrl resourceType /\
  noNetworkCall
    (trace (getResourceContents pathOrId (Some "") serverUrl resourceType)).
Proof.
  rewrite !getResourceContents_local by reflexivity.
  repeat split.
Qed.

(** C8: when the remote fetch throws an error that is not a refused
    connection, not of the invalid-URL kind, and whose payload has no truthy
    [reason], nothing is thrown by the remote step: the local read follows
    the request, it is told that the probe found no file, and its result is
    the result of the call. *)
Theorem unclassified_error_falls_back
    (pathOrId token : string) (serverUrl : option string)
    (resourceType : ResourceType) (axiosErr : AxiosError.t) :
  token <> "" -> fs_access pathOrId = false ->
  outcome (fetchRemote pathOrId token serverUrl resourceType) = inl axiosErr ->
  isConnectionRefused axiosErr = false ->
  isInvalidServerUrl axiosErr = false ->
  truthy (errReasonOf axiosErr) = false ->
  trace (getResourceContents pathOrId (Some token) serverUrl resourceType) =
    [FsAccess pathOrId;
     AxiosGet (requestUrl pathOrId serverUrl resourceType) (requestHeaders token);
     ReadJsonFile pathOrId (fs_access pathOrId)] /\
  outcome (getResourceContents pathOrId (Some token) serverUrl resourceType) =
    readJsonFile pathOrId (fs_access pathOrId).
Proof.
  intros Htoken Hfile Hfetch Hrefused Hinvalid Hreason.
  rewrite (getResourceContents_remote serverUrl resourceType Htoken Hfile).
  rewrite Hfetch. unfold onFetchError.
  rewrite Hrefused, Hinvalid, Hreason, Hfile. split; reflexivity.
Qed.

(** C5, amended: when the remote fetch throws an error that is not a
    refused connection and not of the invalid-URL kind, and whose payload has
    a truthy [reason] (not the empty string, [0], [false], [null] or [NaN]),
    the call throws an error whose code is that reason;
    its data is the access token when the reason is [TOKEN_EXPIRED] or
    [TOKEN_INVALID], and [pathOrId] for every other reason.  The local file
    is not read. *)
Theorem structured_reason_is_raised
    (pathOrId token : string) (serverUrl : option string)
    (resourceType : ResourceType) (axiosErr : AxiosError.t) :
  token <> "" -> fs_access pathOrId = false ->
  outcome (fetchRemote pathOrId token serverUrl resourceType) = inl axiosErr ->
  isConnectionRefused axiosErr = false ->
  isInvalidServerUrl axiosErr = false ->
  truthy (errReasonOf axiosErr) = true ->
  exists d,
    outcome (getResourceContents pathOrId (Some token) serverUrl resourceType) =
      inl (error (errReasonOf axiosErr) d) /\
    (errReasonOf axiosErr = JStr "TOKEN_EXPIRED" \/
     errReasonOf axiosErr = JStr "TOKEN_INVALID" -> d = JStr token) /\
    (errReasonOf axiosErr <> JStr "TOKEN_EXPIRED" ->
     errReasonOf axiosErr <> JStr "TOKEN_INVALID" -> d = JStr pathOrId) /\
    noLocalRead
      (trace (getResourceContents pathOrId (Some token) serverUrl resourceType)).
Proof.
  intros Htoken Hfile Hfetch Hrefused Hinvalid Hreason.
  rewrite (getResourceContents_remote serverUrl resourceType Htoken Hfile).
  rewrite Hfetch. unfold onFetchError.
  rewrite Hrefused, Hinvalid, Hreason.
  eexists. split; [reflexivity|].
  split; [|split; [|reflexivity]].
  - intros [H|H]; rewrite H; reflexivity.
  - intros Hexpired Hinvalid'. unfold array_includes.
    destruct (errReasonOf axiosErr) as [| |b|n| |s|o]; try reflexivity.
    simpl existsb.
    destruct (String.eqb_spec s "TOKEN_EXPIRED") as [->|_];
      [contradiction Hexpired; reflexivity|].
    destruct (String.eqb_spec s "TOKEN_INVALID") as [->|_];
      [contradiction Hinvalid'; reflexivity|].
    reflexivity.
Qed.

(** C9, amended: when the remote fetch runs, the request is the first
    call after the probe and the only request; its URL is the base, a ["/"]
    when the base does not end with one, ["v1/access-tokens/"], the resource
    kind, ["/"] and [pathOrId], where the base is [serverUrl] when it is
    given and not empty and the default otherwise; its only header is
    [Authorization: Bearer {accessToken}]. *)
Theorem request_url_and_header
    (pathOrId token : string) (serverUrl : option string)
    (resourceType : ResourceType) :
  token <> "" -> fs_access pathOrId = false ->
  exists rest,
    trace (getResourceContents pathOrId (Some token) serverUrl resourceType) =
      FsAccess pathOrId
      :: AxiosGet (urlOver (chosenBase serverUrl) pathOrId resourceType)
           [("Authorization", "Bearer " ++ token)]
      :: rest /\
    noNetworkCall rest.
Proof.
  intros Htoken Hfile.
  rewrite (getResourceContents_remote serverUrl resourceType Htoken Hfile).
  rewrite requestUrl_eq. unfold requestHeaders.
  destruct (outcome (fetchRemote pathOrId token serverUrl resourceType))
    as [axiosErr|[doc|]].
  - destruct (outcome (onFetchError pathOrId token serverUrl axiosErr))
      as [e|[doc|]]; eexists; split; reflexivity.
  - eexists; split; reflexivity.
  - eexists; split; reflexivity.
Qed.

(** ** Further properties of [getEffectiveFinalMetaData] *)

Lemma filterMap_app (T U : Type) (f : T -> option U) (xs ys : list T) :
  A.filterMap f (xs ++ ys)%list = (A.filterMap f xs ++ A.filterMap f ys)%list.
Proof.
  induction xs as [|x xs IH]; simpl; [reflexivity|].
  destruct (f x); simpl; rewrite IH; reflexivity.
Qed.

Lemma outcomes_app
    (before after : list HoppRESTHeader) (environment : Environment.t) :
  outcomes (before ++ after)%list environment =
  (outcomes before environment ++ outcomes after environment)%list.
Proof.
  unfold outcomes, survivors, A.filter, A.map.
  rewrite filter_app, map_app. reflexivity.
Qed.

Lemma every_false_exists (ps : list Parsed) :
  A.every bothRight ps = false ->
  Exists (fun p => E.isLeft (key p) = true \/ E.isLeft (value p) = true) ps.
Proof.
  unfold A.every. induction ps as [|p ps IH]; simpl; intro H; [discriminate H|].
  apply andb_false_iff in H. destruct H as [H|H].
  - apply Exists_cons_hd. unfold bothRight in H.
    destruct (key p); [left; reflexivity|].
    destruct (value p); [right; reflexivity|discriminate H].
  - apply Exists_cons_tl. exact (IH H).
Qed.

(** X1: a failure is never empty-handed: the error is a [PARSING_ERROR],
    its data holds at least one outcome with a [Left], every outcome in it
    has [active = true], and some active entry of the input with a non-empty
    key fails in its key or in its value. *)
Theorem parsing_error_names_a_failure
    (metaData : list HoppRESTHeader) (environment : Environment.t)
    (err : HoppCLIError.t (list Parsed)) :
  getEffectiveFinalMetaData metaData environment = E.Left err ->
  HoppCLIError.code err = JStr "PARSING_ERROR" /\
  Exists (fun p => E.isLeft (key p) = true \/ E.isLeft (value p) = true)
    (HoppCLIError.data err) /\
  Forall (fun p => active p = true) (HoppCLIError.data err) /\
  exists m, In m metaData /\ considered m /\ fails environment m.
Proof.
  rewrite getEffectiveFinalMetaData_eq.
  destruct (A.every bothRight (outcomes metaData environment)) eqn:Hall;
    [discriminate|].
  intro H. injection H as <-. simpl.
  pose proof (every_false_exists _ Hall) as Hex.
  split; [reflexivity|]. split; [exact Hex|]. split.
  - unfold outcomes, A.map. apply Forall_forall. intros p Hp.
    apply in_map_iff in Hp. destruct Hp as (m & <- & _). reflexivity.
  - apply Exists_exists in Hex. destruct Hex as (p & Hp & Hleft).
    unfold outcomes, A.map in Hp. apply in_map_iff in Hp.
    destruct Hp as (m & <- & Hm). apply survivors_iff in Hm.
    exists m. split; [tauto|]. split; [tauto|]. exact Hleft.
Qed.

(** X2: resolution goes through concatenation: two lists that both
    succeed give the concatenation of their results; as soon as one of them
    fails, the whole fails and its data is the outcomes of the first list
    followed by the outcomes of the second. *)
Theorem resolution_of_concatenation
    (first second : list HoppRESTHeader) (environment : Environment.t) :
  getEffectiveFinalMetaData (first ++ second)%list environment =
  match getEffectiveFinalMetaData first environment,
        getEffectiveFinalMetaData second environment with
  | E.Right r1, E.Right r2 => E.Right (r1 ++ r2)%list
  | _, _ =>
      E.Left (error (JStr "PARSING_ERROR")
                (List.map (parsePair environment) (survivors first)
                 ++ List.map (parsePair environment) (survivors second))%list)
  end.
Proof.
  rewrite !getEffectiveFinalMetaData_eq, outcomes_app.
  unfold A.every. rewrite forallb_app. fold (outcomes first environment).
  fold (outcomes second environment).
  destruct (forallb bothRight (outcomes first environment));
    destruct (forallb bothRight (outcomes second environment)); simpl;
    try reflexivity.
  rewrite filterMap_app. reflexivity.
Qed.

(** X3: when no entry is active with a non-empty key (the empty list
    among them), the result is the empty success, whatever the templates of
    the entries are. *)
Theorem nothing_to_resolve
    (metaData : list HoppRESTHeader) (environment : Environment.t) :
  (forall m, In m metaData -> active m = false \/ key m = "") ->
  getEffectiveFinalMetaData metaData environment = E.Right [].
Proof.
  intro H.
  assert (Hs : survivors metaData = []).
  { unfold survivors, A.filter.
    induction metaData as [|m ms IH]; simpl; [reflexivity|].
    destruct (isActiveNonEmpty m) eqn:Hm.
    - apply isActiveNonEmpty_iff in Hm.
      exfalso. apply (@excluded_not_considered m); [|exact Hm].
      apply H. left. reflexivity.
    - apply IH. intros m' Hin. apply H. right. exact Hin. }
  rewrite getEffectiveFinalMetaData_eq. unfold outcomes. rewrite Hs.
  reflexivity.
Qed.

(** ** Properties of [getMetaDataPairs] *)

Lemma isActiveWithKey_iff (m : HoppRESTHeader) :
  isActiveWithKey m = true <-> considered m.
Proof.
  rewrite <- isActiveNonEmpty_iff.
  unfold isActiveWithKey, isActiveNonEmpty. rewrite andb_comm. reflexivity.
Qed.

(** The fold from any object is the fold from the empty object, laid over
    the properties of the first. *)
Lemma reduce_assign_get (ms : list HoppRESTHeader) (o : Obj.t) (k : string) :
  A.reduce o (fun target m => Obj.assign target (key m) (value m)) ms k =
  match A.reduce Obj.empty
          (fun target m => Obj.assign target (key m) (value m)) ms k with
  | Some v => Some v
  | None => o k
  end.
Proof.
  unfold A.reduce. revert o.
  induction ms as [|m ms IH]; intro o; cbn [fold_left]; [reflexivity|].
  rewrite (IH (Obj.assign o (key m) (value m))),
          (IH (Obj.assign Obj.empty (key m) (value m))).
  match goal with
  | |- context [fold_left ?f ms Obj.empty k] =>
      destruct (fold_left f ms Obj.empty k); [reflexivity|]
  end.
  unfold Obj.assign, Obj.define, Obj.empty.
  destruct (String.eqb (key m) "__proto__"); [reflexivity|].
  destruct (String.eqb k (key m)); reflexivity.
Qed.

(** What the head of the list contributes: its value under its key, when
    it is kept, unless a later entry writes the key. *)
Lemma getMetaDataPairs_cons
    (m : HoppRESTHeader) (ms : list HoppRESTHeader) (k : string) :
  getMetaDataPairs (m :: ms) k =
  match getMetaDataPairs ms k with
  | Some v => Some v
  | None =>
      if isActiveWithKey m && negb (String.eqb (key m) "__proto__")
         && String.eqb k (key m)
      then Some (value m)
      else None
  end.
Proof.
  unfold getMetaDataPairs, A.filter. simpl.
  destruct (isActiveWithKey m);
    [|match goal with
      | |- ?x = _ => destruct x; reflexivity
      end].
  change (A.reduce Obj.empty
            (fun target m0 => Obj.assign target (key m0) (value m0))
            (m :: filter isActiveWithKey ms) k)
    with (A.reduce (Obj.assign Obj.empty (key m) (value m))
            (fun target m0 => Obj.assign target (key m0) (value m0))
            (filter isActiveWithKey ms) k).
  rewrite reduce_assign_get.
  match goal with
  | |- context [A.reduce Obj.empty ?f ?l k] =>
      destruct (A.reduce Obj.empty f l k); [reflexivity|]
  end.
  unfold Obj.assign, Obj.define, Obj.empty.
  destruct (String.eqb (key m) "__proto__"); [reflexivity|].
  destruct (String.eqb k (key m)); reflexivity.
Qed.

Lemma getMetaDataPairs_none_intro (ms : list HoppRESTHeader) (k : string) :
  (forall m, In m ms -> considered m -> key m <> k) ->
  getMetaDataPairs ms k = None.
Proof.
  induction ms as [|m ms IH]; intro H; [reflexivity|].
  rewrite getMetaDataPairs_cons, IH.
  - destruct (isActiveWithKey m) eqn:Hm; [|reflexivity].
    apply isActiveWithKey_iff in Hm.
    destruct (String.eqb_spec k (key m)) as [->|Hne].
    + exfalso. apply (H m); [left; reflexivity | exact Hm | reflexivity].
    + rewrite andb_false_r. reflexivity.
  - intros m' Hin. apply H. right. exact Hin.
Qed.

Lemma getMetaDataPairs_proto (ms : list HoppRESTHeader) :
  getMetaDataPairs ms "__proto__" = None.
Proof.
  induction ms as [|m ms IH]; [reflexivity|].
  rewrite getMetaDataPairs_cons, IH.
  destruct (isActiveWithKey m); [|reflexivity].
  destruct (String.eqb_spec (key m) "__proto__") as [->|Hne]; [reflexivity|].
  destruct (String.eqb_spec "__proto__" (key m)) as [He|_]; [|reflexivity].
  symmetry in He. contradiction.
Qed.

(** X4: the last write wins: an active entry with a non-empty key other
    than [__proto__], followed by no active entry with the same key, gives
    the value of the property of that key. *)
Theorem last_write_wins
    (before after : list HoppRESTHeader) (m : HoppRESTHeader) :
  considered m ->
  key m <> "__proto__" ->
  (forall m', In m' after -> considered m' -> key m' <> key m) ->
  getMetaDataPairs (before ++ m :: after)%list (key m) = Some (value m).
Proof.
  intros Hm Hproto Hlast.
  induction before as [|b before IH]; simpl.
  - rewrite getMetaDataPairs_cons, (getMetaDataPairs_none_intro _ Hlast).
    apply isActiveWithKey_iff in Hm. rewrite Hm.
    apply String.eqb_neq in Hproto. rewrite Hproto, String.eqb_refl.
    reflexivity.
  - rewrite getMetaDataPairs_cons, IH. reflexivity.
Qed.

(** X5: a key has no property exactly when it is [__proto__] or no
    active entry with a non-empty key has it. *)
Theorem property_is_missing_iff
    (metaData : list HoppRESTHeader) (k : string) :
  getMetaDataPairs metaData k = None <->
  k = "__proto__" \/
  (forall m, In m metaData -> considered m -> key m <> k).
Proof.
  split.
  - destruct (String.eqb_spec k "__proto__") as [->|Hproto]; [left; reflexivity|].
    intro Hnone. right.
    induction metaData as [|a ms IH]; [intros m []|].
    rewrite getMetaDataPairs_cons in Hnone.
    destruct (getMetaDataPairs ms k) eqn:Hms; [discriminate Hnone|].
    intros m [<-|Hin] Hc Hk.
    + apply isActiveWithKey_iff in Hc. rewrite Hc, Hk in Hnone.
      apply String.eqb_neq in Hproto. rewrite Hproto, String.eqb_refl in Hnone.
      discriminate Hnone.
    + exact (IH eq_refl m Hin Hc Hk).
  - intros [->|H].
    + apply getMetaDataPairs_proto.
    + apply getMetaDataPairs_none_intro. exact H.
Qed.

(** X6: every property comes from the input: its key is not empty and
    is not [__proto__], and an active entry of the input has that key and
    that value. *)
Theorem property_comes_from_an_entry
    (metaData : list HoppRESTHeader) (k v : string) :
  getMetaDataPairs metaData k = Some v ->
  k <> "" /\ k <> "__proto__" /\
  exists m, In m metaData /\ active m = true /\ key m = k /\ value m = v.
Proof.
  induction metaData as [|a ms IH]; [discriminate|].
  rewrite getMetaDataPairs_cons.
  destruct (getMetaDataPairs ms k) as [v'|] eqn:Hms.
  - intro H. injection H as ->.
    destruct (IH eq_refl) as (Hk & Hp & m & Hin & Hrest).
    split; [exact Hk|]. split; [exact Hp|].
    exists m. split; [right; exact Hin | exact Hrest].
  - destruct (isActiveWithKey a) eqn:Ha; [|discriminate].
    destruct (String.eqb_spec (key a) "__proto__") as [|Hp]; [discriminate|].
    destruct (String.eqb_spec k (key a)) as [->|]; [|discriminate].
    simpl. intro H. injection H as <-.
    apply isActiveWithKey_iff in Ha. destruct Ha as [Hact Hkey].
    split; [exact Hkey|]. split; [exact Hp|].
    exists a. split; [left; reflexivity|]. repeat split. exact Hact.
Qed.

(** X7: the pairs of a concatenation are the pairs of the second list
    laid over the pairs of the first. *)
Theorem pairs_of_concatenation
    (first second : list HoppRESTHeader) (k : string) :
  getMetaDataPairs (first ++ second)%list k =
  match getMetaDataPairs second k with
  | Some v => Some v
  | None => getMetaDataPairs first k
  end.
Proof.
  unfold getMetaDataPairs, A.filter.
  rewrite filter_app. unfold A.reduce at 1. rewrite fold_left_app.
  exact (reduce_assign_get (filter isActiveWithKey second) _ k).
Qed.

(** X8: an entry that is inactive or has an empty key, and an entry
    whose key is [__proto__], can be deleted from the input: every property
    stays as it is. *)
Theorem pairs_ignore_entry
    (before after : list HoppRESTHeader) (m : HoppRESTHeader) (k : string) :
  active m = false \/ key m = "" \/ key m = "__proto__" ->
  getMetaDataPairs (before ++ m :: after)%list k =
  getMetaDataPairs (before ++ after)%list k.
Proof.
  intro Hm.
  induction before as [|b before IH]; simpl.
  - rewrite getMetaDataPairs_cons.
    destruct (getMetaDataPairs after k); [reflexivity|].
    destruct Hm as [Ha|[Hk|Hp]].
    + unfold isActiveWithKey. rewrite Ha. reflexivity.
    + unfold isActiveWithKey. rewrite Hk, andb_false_r. reflexivity.
    + rewrite Hp. simpl. rewrite andb_false_r. reflexivity.
  - rewrite !getMetaDataPairs_cons, IH. reflexivity.
Qed.

(** ** Properties of [getColorStatusCode] *)

Lemma range_forallb (P : Z -> bool) (lo len : Z) :
  forallb (fun i => P (lo + Z.of_nat i)%Z) (seq 0 (Z.to_nat len)) = true ->
  forall n, (lo <= n < lo + len)%Z -> P n = true.
Proof.
  intros H n Hn. rewrite forallb_forall in H.
  replace n with (lo + Z.of_nat (Z.to_nat (n - lo)))%Z by lia.
  apply H. apply in_seq. lia.
Qed.

Lemma leading_digit (n : Z) :
  (0 <= n <= 9999)%Z ->
  startsWith (statusToString (StatusNum n)) "2" = leadsWith 2 n /\
  startsWith (statusToString (StatusNum n)) "3" = leadsWith 3 n.
Proof.
  intro Hn.
  assert (H : Bool.eqb (startsWith (statusToString (StatusNum n)) "2")
                (leadsWith 2 n)
              && Bool.eqb (startsWith (statusToString (StatusNum n)) "3")
                   (leadsWith 3 n) = true).
  { apply (@range_forallb
             (fun n => Bool.eqb (startsWith (statusToString (StatusNum n)) "2")
                         (leadsWith 2 n)
                       && Bool.eqb (startsWith (statusToString (StatusNum n)) "3")
                            (leadsWith 3 n))
             0%Z 10000%Z).
    - vm_compute. reflexivity.
    - lia. }
  apply andb_true_iff in H. destruct H as [H2 H3].
  split; apply Bool.eqb_prop; assumption.
Qed.

(** X9: for a number from 0 to 9999 the style follows the first digit
    of the number and nothing else: green for 2, 20 to 29, 200 to 299 and
    2000 to 2999, yellow for the same ranges of 3, red for every other
    number; the text is the number, or [Error] for 0, then [" : "] and the
    status text. *)
Theorem style_follows_first_digit (n : Z) (statusText : string) :
  (0 <= n <= 9999)%Z ->
  getColorStatusCode (StatusNum n) statusText =
  (if leadsWith 2 n then greenBright
   else if leadsWith 3 n then yellowBright
   else redBright)
    ((if Z.eqb n 0 then "Error" else statusToString (StatusNum n))
     ++ " : " ++ statusText).
Proof.
  intro Hn. destruct (leading_digit Hn) as [H2 H3].
  unfold getColorStatusCode. rewrite H2, H3. unfold statusEqualsZero.
  destruct (leadsWith 2 n); [reflexivity|].
  destruct (leadsWith 3 n); reflexivity.
Qed.

(** ** Further properties of [getResourceContents] *)

Lemma append_assoc (a b c : string) : (a ++ b) ++ c = a ++ (b ++ c).
Proof.
  induction a as [|x a IH]; simpl; [reflexivity|]. rewrite IH. reflexivity.
Qed.

Lemma length_append (a b : string) :
  String.length (a ++ b) = String.length a + String.length b.
Proof.
  induction a as [|x a IH]; simpl; [reflexivity|]. rewrite IH. reflexivity.
Qed.

Lemma substring_suffix (a b : string) :
  String.substring (String.length a) (String.length b) (a ++ b) = b.
Proof.
  induction a as [|x a IH]; simpl.
  - induction b as [|y b IHb]; simpl; [reflexivity|]. rewrite IHb. reflexivity.
  - exact IH.
Qed.

Lemma endsWith_append (a b : string) : endsWith (a ++ b) b = true.
Proof.
  unfold endsWith. rewrite length_append.
  replace (String.length a + String.length b - String.length b)
    with (String.length a) by lia.
  rewrite substring_suffix, String.eqb_refl, andb_true_r.
  apply Nat.leb_le. lia.
Qed.

(** What the [catch] block leaves in [contents] is [null]. *)
Lemma onFetchError_no_contents
    (pathOrId accessToken : string) (serverUrl : option string)
    (axiosErr : AxiosError.t) (doc : Doc) :
  outcome (onFetchError pathOrId accessToken serverUrl axiosErr) <>
  inr (Some doc).
Proof.
  unfold onFetchError.
  destruct (isConnectionRefused axiosErr); [discriminate|].
  destruct (isInvalidServerUrl axiosErr); [discriminate|].
  destruct (truthy (errReasonOf axiosErr)); discriminate.
Qed.

(** What the [catch] block throws. *)
Lemma onFetchError_thrown
    (pathOrId accessToken : string) (serverUrl : option string)
    (axiosErr : AxiosError.t) (e : HoppCLIError.t JsVal) :
  outcome (onFetchError pathOrId accessToken serverUrl axiosErr) = inl e ->
  e = error (JStr "SERVER_CONNECTION_REFUSED") (of_optional serverUrl) \/
  e = error (JStr "INVALID_SERVER_URL") (of_optional serverUrl) \/
  truthy (HoppCLIError.code e) = true /\
  (HoppCLIError.data e = JStr accessToken \/ HoppCLIError.data e = JStr pathOrId).
Proof.
  unfold onFetchError.
  destruct (isConnectionRefused axiosErr).
  { intro H. injection H as <-. left. reflexivity. }
  destruct (isInvalidServerUrl axiosErr).
  { intro H. injection H as <-. right. left. reflexivity. }
  destruct (truthy (errReasonOf axiosErr)) eqn:Hreason; [|discriminate].
  intro H. injection H as <-. right. right. simpl.
  split; [exact Hreason|].
  destruct (array_includes _ _); [left | right]; reflexivity.
Qed.

(** A document out of the [try] block is the transformed body of a
    response. *)
Lemma fetchRemote_contents
    (pathOrId accessToken : string) (serverUrl : option string)
    (resourceType : ResourceType) (c : option Doc) :
  outcome (fetchRemote pathOrId accessToken serverUrl resourceType) = inr c ->
  exists resp doc,
    c = Some doc /\
    axios_get (requestUrl pathOrId serverUrl resourceType)
      (requestHeaders accessToken) = inr resp /\
    match resourceType with
    | collection => transformWorkspaceCollection (AxiosResponse.data resp)
    | environment => transformWorkspaceEnvironment (AxiosResponse.data resp)
    end = inr doc.
Proof.
  unfold fetchRemote, await, bind, outcome.
  destruct (axios_get _ _) as [e|resp]; [discriminate|].
  destruct (AxiosResponse.get _ _) as [ct|]; [|discriminate].
  unfold ret at 1.
  destruct (includes ct _); [|discriminate].
  unfold negb.
  destruct resourceType.
  - destruct (transformWorkspaceCollection _) as [thrown|doc] eqn:Ht;
      [discriminate|].
    intro H. injection H as <-. exists resp, doc. repeat split. exact Ht.
  - destruct (transformWorkspaceEnvironment _) as [thrown|doc] eqn:Ht;
      [discriminate|].
    intro H. injection H as <-. exists resp, doc. repeat split. exact Ht.
Qed.

(** The [try] block after a response of the right content type: what the
    transformer returns or throws. *)
Lemma fetchRemote_transformed
    (pathOrId accessToken : string) (serverUrl : option string)
    (resourceType : ResourceType) (resp : AxiosResponse.t Raw) (ct : string) :
  axios_get (requestUrl pathOrId serverUrl resourceType)
    (requestHeaders accessToken) = inr resp ->
  AxiosResponse.get (AxiosResponse.headers resp) "content-type" = Some ct ->
  includes ct "application/json" = true ->
  outcome (fetchRemote pathOrId accessToken serverUrl resourceType) =
  match
    match resourceType with
    | collection => transformWorkspaceCollection (AxiosResponse.data resp)
    | environment => transformWorkspaceEnvironment (AxiosResponse.data resp)
    end
  with
  | inl thrown => inl thrown
  | inr doc => inr (Some doc)
  end.
Proof.
  intros H Hct Hinc. unfold fetchRemote, await, bind, outcome.
  rewrite H, Hct. unfold ret at 1. rewrite Hinc. unfold negb.
  destruct resourceType;
    [destruct (transformWorkspaceCollection _)
    |destruct (transformWorkspaceEnvironment _)]; reflexivity.
Qed.

(** X10: the awaited calls come in one of three sequences: the probe and
    the local read; the probe and the request; the probe, the request and
    the local read.  The request is only made with a non-empty token after a
    probe that found no file, and every local read is of [pathOrId] and is
    told what the probe found. *)
Theorem calls_are_ordered
    (pathOrId : string) (accessToken serverUrl : option string)
    (resourceType : ResourceType) :
  trace (getResourceContents pathOrId accessToken serverUrl resourceType) =
    [FsAccess pathOrId; ReadJsonFile pathOrId (fs_access pathOrId)] \/
  exists token,
    accessToken = Some token /\ token <> "" /\ fs_access pathOrId = false /\
    let request :=
      AxiosGet (urlOver (chosenBase serverUrl) pathOrId resourceType)
        [("Authorization", "Bearer " ++ token)] in
    (trace (getResourceContents pathOrId accessToken serverUrl resourceType) =
       [FsAccess pathOrId; request] \/
     trace (getResourceContents pathOrId accessToken serverUrl resourceType) =
       [FsAccess pathOrId; request; ReadJsonFile pathOrId (fs_access pathOrId)]).
Proof.
  destruct accessToken as [token|].
  2: { left. rewrite getResourceContents_local; reflexivity. }
  destruct (truthy (JStr token) && negb (fs_access pathOrId)) eqn:Hcond.
  2: { left. rewrite getResourceContents_local; [reflexivity | exact Hcond]. }
  apply andb_true_iff in Hcond. destruct Hcond as [Htoken Hfile].
  apply truthy_string_iff in Htoken. apply negb_true_iff in Hfile.
  right. exists token. split; [reflexivity|]. split; [exact Htoken|].
  split; [exact Hfile|]. cbv zeta.
  rewrite (getResourceContents_remote serverUrl resourceType Htoken Hfile).
  rewrite requestUrl_eq, Hfile. unfold requestHeaders.
  destruct (outcome (fetchRemote pathOrId token serverUrl resourceType))
    as [axiosErr|[doc|]].
  - destruct (outcome (onFetchError pathOrId token serverUrl axiosErr))
      as [e|[doc|]]; [left | left | right]; reflexivity.
  - left. reflexivity.
  - right. reflexivity.
Qed.

(** X11: a request is made exactly when the token is a non-empty string
    and the probe found no file at [pathOrId]. *)
Theorem network_call_iff
    (pathOrId : string) (accessToken serverUrl : option string)
    (resourceType : ResourceType) :
  existsb isAxiosGet
    (trace (getResourceContents pathOrId accessToken serverUrl resourceType)) =
    true <->
  exists token,
    accessToken = Some token /\ token <> "" /\ fs_access pathOrId = false.
Proof.
  split.
  - intro Hget.
    destruct accessToken as [token|].
    2: { rewrite getResourceContents_local in Hget by reflexivity.
         discriminate Hget. }
    destruct (truthy (JStr token) && negb (fs_access pathOrId)) eqn:Hcond.
    2: { rewrite getResourceContents_local in Hget by exact Hcond.
         discriminate Hget. }
    apply andb_true_iff in Hcond. destruct Hcond as [Htoken Hfile].
    exists token. split; [reflexivity|].
    split; [apply truthy_string_iff; exact Htoken|].
    apply negb_true_iff. exact Hfile.
  - intros (token & -> & Htoken & Hfile).
    rewrite (getResourceContents_remote serverUrl resourceType Htoken Hfile).
    destruct (outcome (fetchRemote pathOrId token serverUrl resourceType))
      as [axiosErr|[doc|]].
    + destruct (outcome (onFetchError pathOrId token serverUrl axiosErr))
        as [e|[doc|]]; reflexivity.
    + reflexivity.
    + reflexivity.
Qed.

(** X12: when the server answers with a content type that includes
    [application/json] and the transformer of the resource type returns a
    document, that document is the result; the transformer is the one of
    collections for [collection] and the one of environments for
    [environment], and the local file is not read. *)
Theorem remote_document_is_returned
    (pathOrId token : string) (serverUrl : option string)
    (resourceType : ResourceType)
    (resp : AxiosResponse.t Raw) (ct : string) (doc : Doc) :
  token <> "" -> fs_access pathOrId = false ->
  axios_get (requestUrl pathOrId serverUrl resourceType)
    (requestHeaders token) = inr resp ->
  AxiosResponse.get (AxiosResponse.headers resp) "content-type" = Some ct ->
  includes ct "application/json" = true ->
  match resourceType with
  | collection => transformWorkspaceCollection (AxiosResponse.data resp)
  | environment => transformWorkspaceEnvironment (AxiosResponse.data resp)
  end = inr doc ->
  getResourceContents pathOrId (Some token) serverUrl resourceType =
  ([FsAccess pathOrId;
    AxiosGet (requestUrl pathOrId serverUrl resourceType) (requestHeaders token)],
   inr doc).
Proof.
  intros Htoken Hfile Hresp Hct Hinc Hdoc.
  rewrite (getResourceContents_remote serverUrl resourceType Htoken Hfile).
  rewrite (@fetchRemote_transformed pathOrId token serverUrl resourceType
             resp ct Hresp Hct Hinc).
  rewrite Hdoc. reflexivity.
Qed.

(** X13: what the transformer throws is caught like an error of the
    request: when it is none of the errors the [catch] block throws for, it is
    dropped and the local file is read. *)
Theorem transformer_failure_falls_back
    (pathOrId token : string) (serverUrl : option string)
    (resourceType : ResourceType)
    (resp : AxiosResponse.t Raw) (ct : string) (thrown : AxiosError.t) :
  token <> "" -> fs_access pathOrId = false ->
  axios_get (requestUrl pathOrId serverUrl resourceType)
    (requestHeaders token) = inr resp ->
  AxiosResponse.get (AxiosResponse.headers resp) "content-type" = Some ct ->
  includes ct "application/json" = true ->
  match resourceType with
  | collection => transformWorkspaceCollection (AxiosResponse.data resp)
  | environment => transformWorkspaceEnvironment (AxiosResponse.data resp)
  end = inl thrown ->
  isConnectionRefused thrown = false ->
  isInvalidServerUrl thrown = false ->
  truthy (errReasonOf thrown) = false ->
  getResourceContents pathOrId (Some token) serverUrl resourceType =
  ([FsAccess pathOrId;
    AxiosGet (requestUrl pathOrId serverUrl resourceType) (requestHeaders token);
    ReadJsonFile pathOrId false],
   readJsonFile pathOrId false).
Proof.
  intros Htoken Hfile Hresp Hct Hinc Hthrown Hrefused Hinvalid Hreason.
  rewrite (getResourceContents_remote serverUrl resourceType Htoken Hfile).
  rewrite (@fetchRemote_transformed pathOrId token serverUrl resourceType
             resp ct Hresp Hct Hinc).
  rewrite Hthrown. unfold onFetchError.
  rewrite Hrefused, Hinvalid, Hreason. reflexivity.
Qed.

(** X14: a rejection with the code [ECONNREFUSED] throws
    [SERVER_CONNECTION_REFUSED] whatever the message, the status and the
    payload of the error are; the data of the error is the [serverUrl]
    argument as it was passed ([undefined] when it was left out), and the
    local file is not read. *)
Theorem refused_connection_is_thrown
    (pathOrId token : string) (serverUrl : option string)
    (resourceType : ResourceType) (axiosErr : AxiosError.t) :
  token <> "" -> fs_access pathOrId = false ->
  axios_get (requestUrl pathOrId serverUrl resourceType)
    (requestHeaders token) = inl axiosErr ->
  AxiosError.code axiosErr = Some "ECONNREFUSED" ->
  getResourceContents pathOrId (Some token) serverUrl resourceType =
  ([FsAccess pathOrId;
    AxiosGet (requestUrl pathOrId serverUrl resourceType) (requestHeaders token)],
   inl (error (JStr "SERVER_CONNECTION_REFUSED") (of_optional serverUrl))).
Proof.
  intros Htoken Hfile Hrej Hcode.
  apply (@connection_refused_is_fatal pathOrId token serverUrl resourceType
           axiosErr Htoken Hfile
           (@fetchRemote_rejected pathOrId token serverUrl resourceType
              axiosErr Hrej)).
  unfold isConnectionRefused. rewrite Hcode. reflexivity.
Qed.

(** X15: the status 404 is tested before the reason: a 404 whose payload
    has a reason, [TOKEN_EXPIRED] say, throws [INVALID_SERVER_URL] and not
    the reason; the data of the error is the [serverUrl] argument as it was
    passed, and the local file is not read. *)
Theorem not_found_hides_the_reason
    (pathOrId token : string) (serverUrl : option string)
    (resourceType : ResourceType) (axiosErr : AxiosError.t)
    (r : AxiosError.response_t) :
  token <> "" -> fs_access pathOrId = false ->
  axios_get (requestUrl pathOrId serverUrl resourceType)
    (requestHeaders token) = inl axiosErr ->
  AxiosError.code axiosErr <> Some "ECONNREFUSED" ->
  AxiosError.response axiosErr = Some r ->
  AxiosError.status r = 404%Z ->
  getResourceContents pathOrId (Some token) serverUrl resourceType =
  ([FsAccess pathOrId;
    AxiosGet (requestUrl pathOrId serverUrl resourceType) (requestHeaders token)],
   inl (error (JStr "INVALID_SERVER_URL") (of_optional serverUrl))).
Proof.
  intros Htoken Hfile Hrej Hcode Hresp Hstatus.
  apply (@invalid_server_url_is_fatal pathOrId token serverUrl resourceType
           axiosErr Htoken Hfile
           (@fetchRemote_rejected pathOrId token serverUrl resourceType
              axiosErr Hrej)).
  - unfold isConnectionRefused.
    destruct (AxiosError.code axiosErr) as [c|]; [|reflexivity].
    destruct (String.eqb_spec c "ECONNREFUSED") as [->|_]; [|reflexivity].
    contradiction Hcode. reflexivity.
  - unfold isInvalidServerUrl, optChain. rewrite Hresp, Hstatus.
    apply orb_true_r.
Qed.

(** X16: a response whose [content-type] header does not include
    [application/json] throws [INVALID_SERVER_URL] whatever its body is; no
    transformer result is used and the local file is not read. *)
Theorem wrong_content_type_is_thrown
    (pathOrId token : string) (serverUrl : option string)
    (resourceType : ResourceType) (resp : AxiosResponse.t Raw) (ct : string) :
  token <> "" -> fs_access pathOrId = false ->
  axios_get (requestUrl pathOrId serverUrl resourceType)
    (requestHeaders token) = inr resp ->
  AxiosResponse.get (AxiosResponse.headers resp) "content-type" = Some ct ->
  includes ct "application/json" = false ->
  getResourceContents pathOrId (Some token) serverUrl resourceType =
  ([FsAccess pathOrId;
    AxiosGet (requestUrl pathOrId serverUrl resourceType) (requestHeaders token)],
   inl (error (JStr "INVALID_SERVER_URL") (of_optional serverUrl))).
Proof.
  intros Htoken Hfile Hresp Hct Hinc.
  apply (@invalid_server_url_is_fatal pathOrId token serverUrl resourceType
           (AxiosError.Error "INVALID_CONTENT_TYPE") Htoken Hfile
           (@fetchRemote_wrong_content_type pathOrId token serverUrl resourceType
              resp ct Hresp Hct Hinc));
    reflexivity.
Qed.

(** X17: every error of the call is an error of the local reader or one
    of the three errors of the remote step: [SERVER_CONNECTION_REFUSED] or
    [INVALID_SERVER_URL] with the [serverUrl] argument as data, or an error
    whose code is truthy and whose data is the token or [pathOrId].  What
    axios or a transformer throws never leaves the function as it is. *)
Theorem errors_are_classified
    (pathOrId : string) (accessToken serverUrl : option string)
    (resourceType : ResourceType) (e : HoppCLIError.t JsVal) :
  outcome (getResourceContents pathOrId accessToken serverUrl resourceType) =
    inl e ->
  readJsonFile pathOrId (fs_access pathOrId) = inl e \/
  e = error (JStr "SERVER_CONNECTION_REFUSED") (of_optional serverUrl) \/
  e = error (JStr "INVALID_SERVER_URL") (of_optional serverUrl) \/
  truthy (HoppCLIError.code e) = true /\
  (HoppCLIError.data e = of_optional accessToken \/
   HoppCLIError.data e = JStr pathOrId).
Proof.
  destruct accessToken as [token|].
  2: { rewrite getResourceContents_local by reflexivity. intro H. left. exact H. }
  destruct (truthy (JStr token) && negb (fs_access pathOrId)) eqn:Hcond.
  2: { rewrite getResourceContents_local by exact Hcond. intro H. left. exact H. }
  apply andb_true_iff in Hcond. destruct Hcond as [Htoken Hfile].
  apply truthy_string_iff in Htoken. apply negb_true_iff in Hfile.
  rewrite (getResourceContents_remote serverUrl resourceType Htoken Hfile).
  rewrite Hfile.
  destruct (outcome (fetchRemote pathOrId token serverUrl resourceType))
    as [axiosErr|[doc|]].
  - pose proof (@onFetchError_thrown pathOrId token serverUrl axiosErr) as Hthrown.
    destruct (outcome (onFetchError pathOrId token serverUrl axiosErr))
      as [e'|[doc|]].
    + intro H. injection H as <-. right. exact (Hthrown e' eq_refl).
    + discriminate.
    + intro H. left. exact H.
  - discriminate.
  - intro H. left. exact H.
Qed.

(** X18: every document the call returns is the document of the local
    reader, or the body of the response to the request, transformed by the
    transformer of the resource type. *)
Theorem documents_have_a_source
    (pathOrId : string) (accessToken serverUrl : option string)
    (resourceType : ResourceType) (doc : Doc) :
  outcome (getResourceContents pathOrId accessToken serverUrl resourceType) =
    inr doc ->
  readJsonFile pathOrId (fs_access pathOrId) = inr doc \/
  exists token resp,
    accessToken = Some token /\
    axios_get (requestUrl pathOrId serverUrl resourceType)
      (requestHeaders token) = inr resp /\
    match resourceType with
    | collection => transformWorkspaceCollection (AxiosResponse.data resp)
    | environment => transformWorkspaceEnvironment (AxiosResponse.data resp)
    end = inr doc.
Proof.
  destruct accessToken as [token|].
  2: { rewrite getResourceContents_local by reflexivity. intro H. left. exact H. }
  destruct (truthy (JStr token) && negb (fs_access pathOrId)) eqn:Hcond.
  2: { rewrite getResourceContents_local by exact Hcond. intro H. left. exact H. }
  apply andb_true_iff in Hcond. destruct Hcond as [Htoken Hfile].
  apply truthy_string_iff in Htoken. apply negb_true_iff in Hfile.
  rewrite (getResourceContents_remote serverUrl resourceType Htoken Hfile).
  rewrite Hfile.
  pose proof (@fetchRemote_contents pathOrId token serverUrl resourceType) as Hc.
  destruct (outcome (fetchRemote pathOrId token serverUrl resourceType))
    as [axiosErr|[doc'|]].
  - pose proof (@onFetchError_no_contents pathOrId token serverUrl axiosErr) as Hn.
    destruct (outcome (onFetchError pathOrId token serverUrl axiosErr))
      as [e'|[doc'|]].
    + discriminate.
    + exfalso. exact (Hn doc' eq_refl).
    + intro H. left. exact H.
  - intro H. injection H as ->. right.
    destruct (Hc (Some doc) eq_refl) as (resp & doc'' & Hd & Hresp & Ht).
    injection Hd as <-. exists token, resp. repeat split; assumption.
  - intro H. left. exact H.
Qed.

(** X19: one slash at the end of the server URL makes no difference to
    the URL of the request. *)
Theorem trailing_slash_is_absorbed
    (pathOrId base : string) (resourceType : ResourceType) :
  base <> "" -> endsWith base "/" = false ->
  requestUrl pathOrId (Some (base ++ "/")) resourceType =
  requestUrl pathOrId (Some base) resourceType.
Proof.
  intros Hbase Hslash. unfold requestUrl, orDefault.
  apply truthy_string_iff in Hbase. rewrite Hbase.
  assert (Hnonempty : truthy (JStr (base ++ "/")) = true).
  { apply truthy_string_iff. destruct base; discriminate. }
  rewrite Hnonempty, endsWith_append, Hslash.
  rewrite append_assoc. reflexivity.
Qed.

End Getters.

(** ** The functions on concrete inputs *)

(** C1 on a list of four entries, two of which are considered: the value
    of the first one names an unbound variable, and the data of the error
    holds the outcome of both. *)
Lemma failure_is_aggregated_witness :
  getEffectiveFinalMetaData Template.parseTemplateStringE
    [ {| active := true; key := "X"; value := "{{missing}}" |};
      {| active := false; key := "Y"; value := "{{missing}}" |};
      {| active := true; key := ""; value := "v" |};
      {| active := true; key := "Z-{{token}}"; value := "abc" |} ]
    {| Environment.name := "dev";
       Environment.variables :=
         [ {| Environment.key := "token"; Environment.value := "abc" |} ] |} =
  E.Left
    (error (JStr "PARSING_ERROR")
       [ {| active := true; key := E.Right "X";
            value := E.Left (Template.UnboundVariable "missing") |};
         {| active := true; key := E.Right "Z-abc"; value := E.Right "abc" |} ]).
Proof.
  apply (@failure_is_aggregated _ Template.parseTemplateStringE).
  exists {| active := true; key := "X"; value := "{{missing}}" |}.
  split; [left; reflexivity|].
  split; [split; [reflexivity | discriminate]|].
  right. reflexivity.
Defined.

(** C3 on a list with an inactive entry in the middle: it can be deleted. *)
Lemma excluded_entries_are_not_resolved_witness :
  getEffectiveFinalMetaData Template.parseTemplateStringE
    [ {| active := true; key := "X"; value := "{{token}}" |};
      {| active := false; key := "Y"; value := "{{missing}}" |};
      {| active := true; key := "Z"; value := "z" |} ]
    {| Environment.name := "dev";
       Environment.variables :=
         [ {| Environment.key := "token"; Environment.value := "abc" |} ] |} =
  getEffectiveFinalMetaData Template.parseTemplateStringE
    [ {| active := true; key := "X"; value := "{{token}}" |};
      {| active := true; key := "Z"; value := "z" |} ]
    {| Environment.name := "dev";
       Environment.variables :=
         [ {| Environment.key := "token"; Environment.value := "abc" |} ] |}.
Proof.
  apply (proj2 (proj2
           (@excluded_entries_are_not_resolved _ Template.parseTemplateStringE
              [ {| active := true; key := "X"; value := "{{token}}" |};
                {| active := false; key := "Y"; value := "{{missing}}" |};
                {| active := true; key := "Z"; value := "z" |} ]
              {| Environment.name := "dev";
                 Environment.variables :=
                   [ {| Environment.key := "token";
                        Environment.value := "abc" |} ] |}))
         [ {| active := true; key := "X"; value := "{{token}}" |} ]
         {| active := false; key := "Y"; value := "{{missing}}" |}
         [ {| active := true; key := "Z"; value := "z" |} ]).
  - reflexivity.
  - left. reflexivity.
Defined.

(** C4 on the first scenario of the specification, with two entries that
    are not considered around the one that is. *)
Lemma success_is_ordered_projection_witness :
  exists resolved,
    getEffectiveFinalMetaData Template.parseTemplateStringE
      [ {| active := false; key := "W"; value := "{{missing}}" |};
        {| active := true; key := "X"; value := "{{token}}" |};
        {| active := true; key := ""; value := "{{missing}}" |} ]
      {| Environment.name := "dev";
         Environment.variables :=
           [ {| Environment.key := "token"; Environment.value := "abc" |} ] |} =
    E.Right resolved /\
    Forall2
      (resolvesTo Template.parseTemplateStringE
         {| Environment.name := "dev";
            Environment.variables :=
              [ {| Environment.key := "token"; Environment.value := "abc" |} ] |})
      [ {| active := true; key := "X"; value := "{{token}}" |} ]
      resolved /\
    Forall (fun r => active r = true) resolved.
Proof.
  apply (@success_is_ordered_projection _ Template.parseTemplateStringE).
  intros m Hin Hc. simpl in Hin.
  destruct Hin as [<-|[<-|[<-|[]]]].
  - destruct Hc as [Ha _]. discriminate Ha.
  - exists {| active := true; key := "X"; value := "abc" |}.
    repeat split.
  - destruct Hc as [_ Hk]. contradiction Hk. reflexivity.
Defined.

(** C2 on the third scenario of the specification: a file and a token. *)
Lemma local_file_takes_precedence_witness :
  let run :=
    getResourceContents Sample.anyFile (Sample.resolves Sample.jsonBody)
      Sample.reader Sample.transform Sample.transform
      "./local.json" (Some "tok") None collection in
  trace run = [FsAccess "./local.json"; ReadJsonFile "./local.json" true] /\
  outcome run = inr "file:./local.json" /\
  noNetworkCall (trace run).
Proof.
  exact (@local_file_takes_precedence _ _
           Sample.anyFile (Sample.resolves Sample.jsonBody)
           Sample.reader Sample.transform Sample.transform
           "./local.json" (Some "tok") None collection eq_refl).
Defined.

(** C5 on the fifth scenario of the specification. *)
Lemma structured_reason_is_raised_witness :
  let run :=
    getResourceContents Sample.noFile
      (Sample.rejects (Sample.httpError 401 (Sample.withReason "TOKEN_EXPIRED")))
      Sample.reader Sample.transform Sample.transform
      "abc123" (Some "tok") (Some "http://localhost:3170") environment in
  exists d,
    outcome run = inl (error (JStr "TOKEN_EXPIRED") d) /\
    (JStr "TOKEN_EXPIRED" = JStr "TOKEN_EXPIRED" \/
     JStr "TOKEN_EXPIRED" = JStr "TOKEN_INVALID" -> d = JStr "tok") /\
    (JStr "TOKEN_EXPIRED" <> JStr "TOKEN_EXPIRED" ->
     JStr "TOKEN_EXPIRED" <> JStr "TOKEN_INVALID" -> d = JStr "abc123") /\
    noLocalRead (trace run).
Proof.
  refine (@structured_reason_is_raised _ _
            Sample.noFile
            (Sample.rejects (Sample.httpError 401 (Sample.withReason "TOKEN_EXPIRED")))
            Sample.reader Sample.transform Sample.transform
            "abc123" "tok" (Some "http://localhost:3170") environment
            (Sample.httpError 401 (Sample.withReason "TOKEN_EXPIRED"))
            _ eq_refl eq_refl eq_refl eq_refl eq_refl).
  discriminate.
Defined.

(** C5 as stated fails on a payload whose [reason] is the empty string:
    the field is there, the error is neither a refused connection nor of the
    invalid-URL kind, yet nothing is thrown with that reason as code: the
    local file is read and its document is the result. *)
Lemma empty_reason_is_not_raised :
  let axiosErr := Sample.httpError 400 (Sample.withReason "") in
  let run :=
    getResourceContents Sample.noFile (Sample.rejects axiosErr)
      (fun pathOrId _ => inr ("file:" ++ pathOrId))
      Sample.transform Sample.transform
      "abc123" (Some "tok") (Some "http://localhost:3170") collection in
  AxiosError.response axiosErr =
    Some {| AxiosError.status := 400;
            AxiosError.data := Some {| AxiosError.reason := JStr "" |} |} /\
  errReasonOf axiosErr = JStr "" /\
  isConnectionRefused axiosErr = false /\
  isInvalidServerUrl axiosErr = false /\
  trace run =
    [FsAccess "abc123";
     AxiosGet "http://localhost:3170/v1/access-tokens/collection/abc123"
       [("Authorization", "Bearer tok")];
     ReadJsonFile "abc123" false] /\
  outcome run = inr "file:abc123" /\
  (forall d, outcome run <> inl (error (errReasonOf axiosErr) d)).
Proof.
  cbv zeta. repeat split. intros d H. discriminate H.
Qed.

(** C8 on a server that answers 500 without a reason. *)
Lemma unclassified_error_falls_back_witness :
  let run :=
    getResourceContents Sample.noFile
      (Sample.rejects (Sample.httpError 500 None))
      Sample.reader Sample.transform Sample.transform
      "abc123" (Some "tok") (Some "http://localhost:3170") collection in
  trace run =
    [FsAccess "abc123";
     AxiosGet "http://localhost:3170/v1/access-tokens/collection/abc123"
       [("Authorization", "Bearer tok")];
     ReadJsonFile "abc123" false] /\
  outcome run = inl (error (JStr "FILE_NOT_FOUND") (JStr "abc123")).
Proof.
  refine (@unclassified_error_falls_back _ _
            Sample.noFile (Sample.rejects (Sample.httpError 500 None))
            Sample.reader Sample.transform Sample.transform
            "abc123" "tok" (Some "http://localhost:3170") collection
            (Sample.httpError 500 None)
            _ eq_refl eq_refl eq_refl eq_refl eq_refl).
  discriminate.
Defined.

(** C9, amended, on a server URL that ends with a slash. *)
Lemma request_url_and_header_witness :
  exists rest,
    trace
      (getResourceContents Sample.noFile (Sample.resolves Sample.jsonBody)
         Sample.reader Sample.transform Sample.transform
         "abc123" (Some "tok") (Some "http://localhost:3170/") environment) =
    FsAccess "abc123"
    :: AxiosGet "http://localhost:3170/v1/access-tokens/environment/abc123"
         [("Authorization", "Bearer tok")]
    :: rest /\
    noNetworkCall rest.
Proof.
  refine (@request_url_and_header _ _
            Sample.noFile (Sample.resolves Sample.jsonBody)
            Sample.reader Sample.transform Sample.transform
            "abc123" "tok" (Some "http://localhost:3170/") environment
            _ eq_refl).
  discriminate.
Defined.

(** C9 as stated fails on an empty [serverUrl]: the string is given, yet
    the request goes to the default server, and no request goes to the URL
    built over the empty base. *)
Lemma empty_server_url_goes_to_default :
  let run :=
    getResourceContents Sample.noFile (Sample.resolves Sample.jsonBody)
      Sample.reader Sample.transform Sample.transform
      "abc123" (Some "tok") (Some "") collection in
  trace run =
    [FsAccess "abc123";
     AxiosGet "https://api.hoppscotch.io/v1/access-tokens/collection/abc123"
       [("Authorization", "Bearer tok")]] /\
  urlOver (statedBase (Some "")) "abc123" collection =
    "/v1/access-tokens/collection/abc123" /\
  ~ In (AxiosGet (urlOver (statedBase (Some "")) "abc123" collection)
          [("Authorization", "Bearer tok")])
       (trace run).
Proof.
  cbv zeta. split; [reflexivity|]. split; [reflexivity|].
  vm_compute. intros [H|[H|[]]]; discriminate H.
Qed.

(** C7: with [serverUrl] left out, a refused connection to the default
    server throws [SERVER_CONNECTION_REFUSED] and the local file is not read,
    but the data of the error is [undefined], not the URL of the server that
    refused. *)
Theorem connection_refused_reports_undefined :
  getResourceContents Sample.noFile (Sample.rejects Sample.connectionRefused)
    Sample.reader Sample.transform Sample.transform
    "abc123" (Some "tok") None collection =
  ([FsAccess "abc123";
    AxiosGet "https://api.hoppscotch.io/v1/access-tokens/collection/abc123"
      [("Authorization", "Bearer tok")]],
   inl (error (JStr "SERVER_CONNECTION_REFUSED") JUndefined)).
Proof. reflexivity. Qed.

(** C6: with [serverUrl] left out, each of the four triggers (a URL that
    axios refuses, a host that is not found, a response that is not JSON and
    a 404) throws [INVALID_SERVER_URL] after the request to the default
    server and without a local read, but the data of the error is
    [undefined], not the URL of that server. *)
Theorem invalid_server_url_reports_undefined :
  let request :=
    AxiosGet "https://api.hoppscotch.io/v1/access-tokens/collection/abc123"
      [("Authorization", "Bearer tok")] in
  let thrown : Async (HoppCLIError.t JsVal) string :=
    ([FsAccess "abc123"; request],
     inl (error (JStr "INVALID_SERVER_URL") JUndefined)) in
  let run axios :=
    getResourceContents Sample.noFile axios
      Sample.reader Sample.transform Sample.transform
      "abc123" (Some "tok") None collection in
  run (Sample.rejects Sample.invalidUrl) = thrown /\
  run (Sample.rejects Sample.hostNotFound) = thrown /\
  run (Sample.resolves Sample.htmlPage) = thrown /\
  run (Sample.rejects (Sample.httpError 404 None)) = thrown.
Proof. repeat split. Qed.


(** ** Further concrete runs *)

(** X1 on a list whose second entry names an unbound variable. *)
Lemma parsing_error_names_a_failure_witness :
  let metaData :=
    [ {| active := true; key := "A"; value := "a" |};
      {| active := true; key := "X"; value := "{{missing}}" |} ] in
  let environment :=
    {| Environment.name := "dev"; Environment.variables := [] |} in
  let err :=
    error (JStr "PARSING_ERROR")
      [ {| active := true; key := E.Right "A"; value := E.Right "a" |};
        {| active := true; key := E.Right "X";
           value := E.Left (Template.UnboundVariable "missing") |} ] in
  HoppCLIError.code err = JStr "PARSING_ERROR" /\
  Exists (fun p => E.isLeft (key p) = true \/ E.isLeft (value p) = true)
    (HoppCLIError.data err) /\
  Forall (fun p => active p = true) (HoppCLIError.data err) /\
  exists m, In m metaData /\ considered m /\
            fails Template.parseTemplateStringE environment m.
Proof.
  exact (@parsing_error_names_a_failure _ Template.parseTemplateStringE
           [ {| active := true; key := "A"; value := "a" |};
             {| active := true; key := "X"; value := "{{missing}}" |} ]
           {| Environment.name := "dev"; Environment.variables := [] |}
           _ eq_refl).
Defined.

(** X3 on two entries with unbound variables, one inactive and one
    without a key. *)
Lemma nothing_to_resolve_witness :
  getEffectiveFinalMetaData Template.parseTemplateStringE
    [ {| active := false; key := "X"; value := "{{missing}}" |};
      {| active := true; key := ""; value := "{{missing}}" |} ]
    {| Environment.name := "dev"; Environment.variables := [] |} =
  E.Right [].
Proof.
  apply (@nothing_to_resolve _ Template.parseTemplateStringE).
  intros m [<-|[<-|[]]]; [left | right]; reflexivity.
Defined.

(** X4 on a key written twice, then once more by an inactive entry. *)
Lemma last_write_wins_witness :
  getMetaDataPairs
    [ {| active := true; key := "Accept"; value := "text/html" |};
      {| active := true; key := "Accept"; value := "application/json" |};
      {| active := true; key := "X-Id"; value := "7" |};
      {| active := false; key := "Accept"; value := "*/*" |} ]
    "Accept" =
  Some "application/json".
Proof.
  apply (@last_write_wins
           [ {| active := true; key := "Accept"; value := "text/html" |} ]
           [ {| active := true; key := "X-Id"; value := "7" |};
             {| active := false; key := "Accept"; value := "*/*" |} ]
           {| active := true; key := "Accept"; value := "application/json" |}).
  - split; [reflexivity | discriminate].
  - discriminate.
  - intros m' [<-|[<-|[]]] Hc.
    + intro H. discriminate H.
    + destruct Hc as [Ha _]. discriminate Ha.
Defined.

(** X5 on an active entry whose key is [__proto__]. *)
Lemma property_is_missing_iff_witness :
  getMetaDataPairs
    [ {| active := true; key := "__proto__"; value := "x" |} ]
    "__proto__" =
  None.
Proof.
  exact (proj2 (property_is_missing_iff
                  [ {| active := true; key := "__proto__"; value := "x" |} ]
                  "__proto__")
           (or_introl eq_refl)).
Defined.

(** X6 on the property of a key that is written twice. *)
Lemma property_comes_from_an_entry_witness :
  "A" <> "" /\ "A" <> "__proto__" /\
  exists m,
    In m [ {| active := true; key := "A"; value := "1" |};
           {| active := true; key := "A"; value := "2" |} ] /\
    active m = true /\ key m = "A" /\ value m = "2".
Proof.
  exact (@property_comes_from_an_entry
           [ {| active := true; key := "A"; value := "1" |};
             {| active := true; key := "A"; value := "2" |} ]
           "A" "2" eq_refl).
Defined.

(** X8 on an inactive entry between two active ones. *)
Lemma pairs_ignore_entry_witness :
  getMetaDataPairs
    [ {| active := true; key := "A"; value := "1" |};
      {| active := false; key := "A"; value := "2" |};
      {| active := true; key := "B"; value := "3" |} ]
    "A" =
  getMetaDataPairs
    [ {| active := true; key := "A"; value := "1" |};
      {| active := true; key := "B"; value := "3" |} ]
    "A".
Proof.
  exact (@pairs_ignore_entry
           [ {| active := true; key := "A"; value := "1" |} ]
           [ {| active := true; key := "B"; value := "3" |} ]
           {| active := false; key := "A"; value := "2" |}
           "A" (or_introl eq_refl)).
Defined.

(** X9 on the status 204. *)
Lemma style_follows_first_digit_witness :
  getColorStatusCode Sample2.greenBright Sample2.yellowBright Sample2.redBright
    Sample2.onlyZeroDigit (StatusNum 204) "No Content" =
  Sample2.greenBright "204 : No Content".
Proof.
  refine (@style_follows_first_digit
            Sample2.greenBright Sample2.yellowBright Sample2.redBright
            Sample2.onlyZeroDigit 204%Z "No Content" _).
  lia.
Defined.

(** X11 on a token and no file. *)
Lemma network_call_iff_witness :
  existsb isAxiosGet
    (trace
       (getResourceContents Sample.noFile (Sample.resolves Sample.jsonBody)
          Sample.reader Sample.transform Sample.transform
          "abc123" (Some "tok") None collection)) =
  true.
Proof.
  refine (proj2 (@network_call_iff _ _
                   Sample.noFile (Sample.resolves Sample.jsonBody)
                   Sample.reader Sample.transform Sample.transform
                   "abc123" (Some "tok") None collection)
            (ex_intro _ "tok" (conj eq_refl (conj _ eq_refl)))).
  discriminate.
Defined.

(** X12 on a JSON response for an environment. *)
Lemma remote_document_is_returned_witness :
  getResourceContents Sample.noFile (Sample.resolves Sample.jsonBody)
    Sample.reader Sample2.transformThrows Sample.transform
    "abc123" (Some "tok") (Some "http://localhost:3170") environment =
  ([FsAccess "abc123";
    AxiosGet "http://localhost:3170/v1/access-tokens/environment/abc123"
      [("Authorization", "Bearer tok")]],
   inr "workspace:{}").
Proof.
  refine (@remote_document_is_returned _ _
            Sample.noFile (Sample.resolves Sample.jsonBody)
            Sample.reader Sample2.transformThrows Sample.transform
            "abc123" "tok" (Some "http://localhost:3170") environment
            Sample.jsonBody "application/json; charset=utf-8" "workspace:{}"
            _ eq_refl eq_refl eq_refl eq_refl eq_refl).
  discriminate.
Defined.

(** X13 on a JSON response that the transformer of collections rejects. *)
Lemma transformer_failure_falls_back_witness :
  getResourceContents Sample.noFile (Sample.resolves Sample.jsonBody)
    Sample.reader Sample2.transformThrows Sample.transform
    "abc123" (Some "tok") (Some "http://localhost:3170") collection =
  ([FsAccess "abc123";
    AxiosGet "http://localhost:3170/v1/access-tokens/collection/abc123"
      [("Authorization", "Bearer tok")];
    ReadJsonFile "abc123" false],
   inl (error (JStr "FILE_NOT_FOUND") (JStr "abc123"))).
Proof.
  refine (@transformer_failure_falls_back _ _
            Sample.noFile (Sample.resolves Sample.jsonBody)
            Sample.reader Sample2.transformThrows Sample.transform
            "abc123" "tok" (Some "http://localhost:3170") collection
            Sample.jsonBody "application/json; charset=utf-8"
            (AxiosError.Error "Cannot read properties of undefined (reading 'map')")
            _ eq_refl eq_refl eq_refl eq_refl eq_refl eq_refl eq_refl eq_refl).
  discriminate.
Defined.

(** X14 on a refused connection to a given server. *)
Lemma refused_connection_is_thrown_witness :
  getResourceContents Sample.noFile (Sample.rejects Sample.connectionRefused)
    Sample.reader Sample.transform Sample.transform
    "abc123" (Some "tok") (Some "http://localhost:3170") collection =
  ([FsAccess "abc123";
    AxiosGet "http://localhost:3170/v1/access-tokens/collection/abc123"
      [("Authorization", "Bearer tok")]],
   inl (error (JStr "SERVER_CONNECTION_REFUSED") (JStr "http://localhost:3170"))).
Proof.
  refine (@refused_connection_is_thrown _ _
            Sample.noFile (Sample.rejects Sample.connectionRefused)
            Sample.reader Sample.transform Sample.transform
            "abc123" "tok" (Some "http://localhost:3170") collection
            Sample.connectionRefused _ eq_refl eq_refl eq_refl).
  discriminate.
Defined.

(** X15 on a 404 whose payload says that the token has expired. *)
Lemma not_found_hides_the_reason_witness :
  getResourceContents Sample.noFile
    (Sample.rejects (Sample.httpError 404 (Sample.withReason "TOKEN_EXPIRED")))
    Sample.reader Sample.transform Sample.transform
    "abc123" (Some "tok") (Some "http://localhost:3170") collection =
  ([FsAccess "abc123";
    AxiosGet "http://localhost:3170/v1/access-tokens/collection/abc123"
      [("Authorization", "Bearer tok")]],
   inl (error (JStr "INVALID_SERVER_URL") (JStr "http://localhost:3170"))).
Proof.
  refine (@not_found_hides_the_reason _ _
            Sample.noFile
            (Sample.rejects
               (Sample.httpError 404 (Sample.withReason "TOKEN_EXPIRED")))
            Sample.reader Sample.transform Sample.transform
            "abc123" "tok" (Some "http://localhost:3170") collection
            (Sample.httpError 404 (Sample.withReason "TOKEN_EXPIRED"))
            {| AxiosError.status := 404;
               AxiosError.data := Sample.withReason "TOKEN_EXPIRED" |}
            _ eq_refl eq_refl _ eq_refl eq_refl).
  - discriminate.
  - discriminate.
Defined.

(** X16 on a page of HTML. *)
Lemma wrong_content_type_is_thrown_witness :
  getResourceContents Sample.noFile (Sample.resolves Sample.htmlPage)
    Sample.reader Sample.transform Sample.transform
    "abc123" (Some "tok") (Some "http://localhost:3170") collection =
  ([FsAccess "abc123";
    AxiosGet "http://localhost:3170/v1/access-tokens/collection/abc123"
      [("Authorization", "Bearer tok")]],
   inl (error (JStr "INVALID_SERVER_URL") (JStr "http://localhost:3170"))).
Proof.
  refine (@wrong_content_type_is_thrown _ _
            Sample.noFile (Sample.resolves Sample.htmlPage)
            Sample.reader Sample.transform Sample.transform
            "abc123" "tok" (Some "http://localhost:3170") collection
            Sample.htmlPage "text/html; charset=utf-8"
            _ eq_refl eq_refl eq_refl eq_refl).
  discriminate.
Defined.

(** X17 on the error of the reader after a 500. *)
Lemma errors_are_classified_witness :
  let e := error (JStr "FILE_NOT_FOUND") (JStr "abc123") in
  Sample.reader "abc123" (Sample.noFile "abc123") = inl e \/
  e = error (JStr "SERVER_CONNECTION_REFUSED") (of_optional None) \/
  e = error (JStr "INVALID_SERVER_URL") (of_optional None) \/
  truthy (HoppCLIError.code e) = true /\
  (HoppCLIError.data e = of_optional (Some "tok") \/
   HoppCLIError.data e = JStr "abc123").
Proof.
  exact (@errors_are_classified _ _
           Sample.noFile (Sample.rejects (Sample.httpError 500 None))
           Sample.reader Sample.transform Sample.transform
           "abc123" (Some "tok") None collection
           (error (JStr "FILE_NOT_FOUND") (JStr "abc123")) eq_refl).
Defined.

(** X18 on the document of a JSON response. *)
Lemma documents_have_a_source_witness :
  Sample.reader "abc123" (Sample.noFile "abc123") = inr "workspace:{}" \/
  exists token resp,
    Some "tok" = Some token /\
    Sample.resolves Sample.jsonBody
      (requestUrl "abc123" None collection) (requestHeaders token) = inr resp /\
    Sample.transform (AxiosResponse.data resp) = inr "workspace:{}".
Proof.
  exact (@documents_have_a_source _ _
           Sample.noFile (Sample.resolves Sample.jsonBody)
           Sample.reader Sample.transform Sample.transform
           "abc123" (Some "tok") None collection "workspace:{}" eq_refl).
Defined.

(** X19 on a local server. *)
Lemma trailing_slash_is_absorbed_witness :
  requestUrl "abc123" (Some "http://localhost:3170/") environment =
  requestUrl "abc123" (Some "http://localhost:3170") environment.
Proof.
  refine (@trailing_slash_is_absorbed "abc123" "http://localhost:3170"
            environment _ eq_refl).
  discriminate.
Defined.
